(** * Weather agent sandbox: guardrail hooks, weather tool, turn dispatcher

    A shallow embedding of the pure logic of

      - [weather_agent_multimodel/agent_session.py]
      - [weather_agentteam_multimodel/agentteam_session.py]
      - [weather_agentteam_multimodel_stateful/agentteam_statefulsession.py]

    Python [str] values are modelled as Rocq [string]s holding the UTF-8
    encoding of the text (so the degree sign is the two bytes C2 B0).  The
    case mappings [lower], [upper] and [capitalize] are modelled on the ASCII
    letters and leave every other byte alone; the case mappings Python
    applies to letters outside ASCII are not part of this model.
    Where a property of the weather tool has to hold for every city
    string, the tool is also given over an arbitrary case mapping
    ([get_weather_with]): the Unicode tables behind [str.lower] and
    [str.capitalize] belong to the interpreter, not to the repository.
    Session state and tool arguments are Python dictionaries with string
    keys: they are [gmap string _].  The event stream an agent run yields
    is the list of the events in the order they are produced. *)

From Stdlib Require Import ZArith NArith Ascii String Bool List Lia.
From Stdlib Require Import Numbers.DecimalString.
From Stdlib Require Import Floats.PrimFloat Floats.SpecFloat Floats.FloatOps.
From Stdlib Require Import Numbers.Cyclic.Int63.Uint63.
From stdpp Require Import base option gmap strings list fin_maps.

#[local] Arguments String.append !s1 s2 : simpl nomatch.

(** ** Python string operations *)

Module PyStr.

Definition code (c : ascii) : N := N_of_ascii c.

Definition is_ascii_upper (c : ascii) : bool :=
  ((65 <=? code c) && (code c <=? 90))%N.

Definition is_ascii_lower (c : ascii) : bool :=
  ((97 <=? code c) && (code c <=? 122))%N.

Definition lower_char (c : ascii) : ascii :=
  if is_ascii_upper c then ascii_of_N (code c + 32) else c.

Definition upper_char (c : ascii) : ascii :=
  if is_ascii_lower c then ascii_of_N (code c - 32) else c.

(** [s.lower()], on the ASCII letters. *)
Fixpoint lower (s : string) : string :=
  match s with
  | EmptyString => EmptyString
  | String c s' => String (lower_char c) (lower s')
  end.

(** [s.upper()], on the ASCII letters. *)
Fixpoint upper (s : string) : string :=
  match s with
  | EmptyString => EmptyString
  | String c s' => String (upper_char c) (upper s')
  end.

(** [s.capitalize()]: first character upper-cased, the rest lower-cased. *)
Definition capitalize (s : string) : string :=
  match s with
  | EmptyString => EmptyString
  | String c s' => String (upper_char c) (lower s')
  end.

(** [s.replace(" ", "")]: every space removed. *)
Fixpoint remove_spaces (s : string) : string :=
  match s with
  | EmptyString => EmptyString
  | String c s' =>
      if Ascii.eqb c " "%char then remove_spaces s'
      else String c (remove_spaces s')
  end.

(** [h.startswith(n)] *)
Fixpoint startswith (n h : string) : bool :=
  match n, h with
  | EmptyString, _ => true
  | String _ _, EmptyString => false
  | String a n', String b h' => Ascii.eqb a b && startswith n' h'
  end.

(** [n in h] for two strings: [n] occurs in [h] at some position. *)
Fixpoint str_in (n h : string) : bool :=
  startswith n h ||
  match h with
  | EmptyString => false
  | String _ h' => str_in n h'
  end.

(** Truth value of a string: non-empty. *)
Definition truthy (s : string) : bool :=
  match s with EmptyString => false | _ => true end.

(** [str(z)] for an integer. *)
Definition of_Z (z : Z) : string := NilZero.string_of_int (Z.to_int z).

End PyStr.

(** ** Python numbers: [int], [float] and the [.0f] format *)

Module PyNum.

Inductive num :=
| NInt (z : Z)
| NFloat (f : float).

(** [float(z)], for the integers a 63-bit conversion covers. *)
Definition float_of_int (z : Z) : float :=
  if (z <? 0)%Z
  then PrimFloat.opp (PrimFloat.of_uint63 (Uint63.of_Z (- z)))
  else PrimFloat.of_uint63 (Uint63.of_Z z).

Definition to_float (x : num) : float :=
  match x with
  | NInt z => float_of_int z
  | NFloat f => f
  end.

(** [x * y]: integer product on two integers, float product otherwise. *)
Definition mul (x y : num) : num :=
  match x, y with
  | NInt a, NInt b => NInt (a * b)
  | _, _ => NFloat (PrimFloat.mul (to_float x) (to_float y))
  end.

(** [x / y]: true division, always a float. *)
Definition truediv (x y : num) : num :=
  NFloat (PrimFloat.div (to_float x) (to_float y)).

(** [x + y] *)
Definition add (x y : num) : num :=
  match x, y with
  | NInt a, NInt b => NInt (a + b)
  | _, _ => NFloat (PrimFloat.add (to_float x) (to_float y))
  end.

(** The integer nearest to [m * 2^e] ([m] a positive mantissa), a tie
    going to the even neighbour: the rounding of the [.0f] format. *)
Definition round_half_even_scaled (m : positive) (e : Z) : Z :=
  if (0 <=? e)%Z then Z.pos m * 2 ^ e
  else
    let d := (2 ^ (- e))%Z in
    let q := (Z.pos m / d)%Z in
    let r := (Z.pos m mod d)%Z in
    match (2 * r ?= d)%Z with
    | Lt => q
    | Gt => (q + 1)%Z
    | Eq => if Z.even q then q else (q + 1)%Z
    end.

Definition sign_prefix (s : bool) : string := if s then "-" else "".

(** [f"{f:.0f}"] for a float. *)
Definition format_float_0f (f : float) : string :=
  match Prim2SF f with
  | S754_zero s => sign_prefix s +:+ "0"
  | S754_infinity s => sign_prefix s +:+ "inf"
  | S754_nan => "nan"
  | S754_finite s m e =>
      sign_prefix s +:+ PyStr.of_Z (round_half_even_scaled m e)
  end.

(** [f"{x:.0f}"]: an integer is converted to a float first. *)
Definition format_0f (x : num) : string := format_float_0f (to_float x).

End PyNum.

(** ** Data model *)

(** The Python values that session state and tool arguments hold
    ([Dict[str, Any]]): the shapes the code below tells apart. *)
Inductive pyval :=
| PNone
| PBool (b : bool)
| PInt (z : Z)
| PStr (s : string).

(** Truth value of a Python value, as [if v] and [v and ...] test it. *)
Definition pyval_truthy (v : pyval) : bool :=
  match v with
  | PNone => false
  | PBool b => b
  | PInt z => negb (z =? 0)%Z
  | PStr s => PyStr.truthy s
  end.

(** [v == s] for a string literal [s]. *)
Definition pyval_eq_str (v : pyval) (s : string) : bool :=
  match v with
  | PStr t => String.eqb t s
  | _ => false
  end.

(** Exceptions the modelled code can raise. *)
Inductive exn :=
| AttributeError.

(** Outcome of a call: a returned value or a raised exception. *)
Inductive pyresult (A : Type) :=
| Returns (a : A)
| Raises (e : exn).
Arguments Returns {A} a.
Arguments Raises {A} e.

(** [types.Part]: only its [text] is read. *)
Record Part := { text : option string }.

(** [types.Content] *)
Record Content := { role : option string; parts : option (list Part) }.

(** [LlmRequest]: the message history sent to the model. *)
Record LlmRequest := { contents : list Content }.

(** [LlmResponse] *)
Record LlmResponse := { response_content : option Content }.

(** [EventActions] *)
Record EventActions := { escalate : option bool }.

(** [Event]: [is_final_response] is the value of the method of that name. *)
Record Event := {
  is_final_response : bool;
  content : option Content;
  actions : option EventActions;
  error_message : option string
}.

(** Truth value of an optional list: present and non-empty. *)
Definition parts_truthy (ps : option (list Part)) : bool :=
  match ps with
  | Some (_ :: _) => true
  | _ => false
  end.

(** [ps[0].text] *)
Definition first_part_text (ps : option (list Part)) : option string :=
  match ps with
  | Some (p :: _) => text p
  | _ => None
  end.

(** Truth value of an optional string: present and non-empty. *)
Definition opt_str_truthy (o : option string) : bool :=
  match o with
  | Some s => PyStr.truthy s
  | None => false
  end.

(** [str(o)] inside an f-string: [None] prints as the word. *)
Definition str_of_opt (o : option string) : string :=
  match o with
  | Some s => s
  | None => "None"
  end.

(** The dictionary literal [{"status": "success", "report": report}]. *)
Definition success_dict (report : string) : gmap string string :=
  <["status" := "success"]> (<["report" := report]> ∅).

(** The dictionary literal [{"status": "error", "error_message": msg}]. *)
Definition error_dict (msg : string) : gmap string string :=
  <["status" := "error"]> (<["error_message" := msg]> ∅).

(** Exceptions of the set-up code: [ValueError(msg)], and the
    [UnboundLocalError] Python raises when the local variable [name] is read
    before any branch has assigned it. *)
Inductive setup_exn :=
| ValueError (msg : string)
| UnboundLocalError (name : string).

(** Outcome of a set-up call. *)
Inductive setup_result (A : Type) :=
| Ok (a : A)
| Fail (e : setup_exn).
Arguments Ok {A} a.
Arguments Fail {A} e.

(** The [model] an agent is given: a [LiteLlm(model=...)] wrapper, or the
    plain model string that Gemini models are passed as. *)
Inductive llm_model :=
| LiteLlm (model : string)
| ModelStr (name : string).

(** An optional string seen through [if not s]: [Some s] when it is
    present and non-empty. *)
Definition nonempty_str (o : option string) : option string :=
  match o with
  | Some s => if PyStr.truthy s then Some s else None
  | None => None
  end.

(** [os.getenv(name)] on the process environment [env]. *)
Definition getenv (env : gmap string string) (name : string) : option string :=
  env !! name.

(** ** The stateless weather tool
    ([agent_session.py], [agentteam_session.py]) *)

Module agent_session.

Definition mock_weather_db : gmap string (gmap string string) :=
  <["newyork" := success_dict
      "The weather in New York is sunny with a temperature of 25°C."]>
 (<["london" := success_dict
      "It's cloudy in London with a temperature of 15°C."]>
 (<["tokyo" := success_dict
      "Tokyo is experiencing light rain and a temperature of 18°C."]> ∅)).

Definition get_weather (city : string) : gmap string string :=
  let city_normalized := PyStr.remove_spaces (PyStr.lower city) in
  match mock_weather_db !! city_normalized with
  | Some entry => entry
  | None =>
      error_dict
        ("Sorry, I don't have weather information for '" +:+ city +:+ "'.")
  end.

(** [get_weather(city)] over the case mapping of the interpreter: [lower]
    stands for [str.lower] on every string, whatever characters it holds.
    [get_weather] above is this function at the ASCII mapping. *)
Definition get_weather_with (lower : string → string) (city : string)
  : gmap string string :=
  let city_normalized := PyStr.remove_spaces (lower city) in
  match mock_weather_db !! city_normalized with
  | Some entry => entry
  | None =>
      error_dict
        ("Sorry, I don't have weather information for '" +:+ city +:+ "'.")
  end.

(** What [create_session] computes before it hands over to the framework:
    the three identifiers, the agent name, [AGENT_MODEL] and [model]. *)
Record session_setup := {
  APP_NAME : string;
  USER_ID : string;
  SESSION_ID : string;
  agent_name : string;
  AGENT_MODEL : string;
  model : llm_model
}.

(** The [if]/[elif] chain of [create_session] on [MODEL_SHORT_NAME]: the
    model comes from the environment alone.  With no branch taken,
    [model] is the first unassigned local the call of
    [create_weather_agent] reads. *)
Definition select_model (env : gmap string string) (MODEL_SHORT_NAME : string)
  : setup_result (string * llm_model) :=
  if String.eqb MODEL_SHORT_NAME "gpt" then
    match nonempty_str (getenv env "MODEL_GPT") with
    | Some MODEL_GPT => Ok (MODEL_GPT, LiteLlm MODEL_GPT)
    | None => Fail (ValueError "MODEL_GPT is not defined in .env")
    end
  else if String.eqb MODEL_SHORT_NAME "claude" then
    match nonempty_str (getenv env "MODEL_CLAUDE") with
    | Some MODEL_CLAUDE => Ok (MODEL_CLAUDE, LiteLlm MODEL_CLAUDE)
    | None => Fail (ValueError "MODEL_CLAUDE is not defined in .env")
    end
  else if String.eqb MODEL_SHORT_NAME "gemini" then
    match nonempty_str (getenv env "MODEL_GEMINI") with
    | Some MODEL_GEMINI => Ok (MODEL_GEMINI, ModelStr MODEL_GEMINI)
    | None => Fail (ValueError "MODEL_GEMINI is not defined in .env")
    end
  else Fail (UnboundLocalError "model").

(** [create_session(MODEL_SHORT_NAME, APP_NAME_ROOT, USER_ID_ROOT,
    SESSION_ID_ROOT)] up to the construction of the agent. *)
Definition create_session (env : gmap string string)
    (MODEL_SHORT_NAME APP_NAME_ROOT USER_ID_ROOT SESSION_ID_ROOT : string)
  : setup_result session_setup :=
  let APP_NAME := APP_NAME_ROOT +:+ "_" +:+ MODEL_SHORT_NAME in
  let USER_ID := USER_ID_ROOT +:+ "_" +:+ MODEL_SHORT_NAME in
  let SESSION_ID := SESSION_ID_ROOT +:+ "_" +:+ MODEL_SHORT_NAME in
  match select_model env MODEL_SHORT_NAME with
  | Ok (AGENT_MODEL, model) =>
      Ok {| APP_NAME := APP_NAME; USER_ID := USER_ID; SESSION_ID := SESSION_ID;
            agent_name := "weather_agent_" +:+ MODEL_SHORT_NAME;
            AGENT_MODEL := AGENT_MODEL; model := model |}
  | Fail e => Fail e
  end.

End agent_session.

(** ** The stateful agent team ([agentteam_statefulsession.py]) *)

Module agentteam_statefulsession.

Record weather_data := { temp_c : Z; condition : string }.

Definition mock_weather_db : gmap string weather_data :=
  <["newyork" := {| temp_c := 25; condition := "sunny" |}]>
 (<["london" := {| temp_c := 15; condition := "cloudy" |}]>
 (<["tokyo" := {| temp_c := 18; condition := "light rain" |}]> ∅)).

(** [(temp_c * 9/5) + 32] *)
Definition fahrenheit (temp_c : Z) : PyNum.num :=
  PyNum.add
    (PyNum.truediv (PyNum.mul (PyNum.NInt temp_c) (PyNum.NInt 9)) (PyNum.NInt 5))
    (PyNum.NInt 32).

(** [get_weather(city, tool_context)]: the result dictionary and the
    session state after the call. *)
Definition get_weather (city : string) (state : gmap string pyval)
  : gmap string string * gmap string pyval :=
  let preferred_unit :=
    default (PStr "Celsius") (state !! "user_preference_temperature_unit") in
  let city_normalized := PyStr.remove_spaces (PyStr.lower city) in
  match mock_weather_db !! city_normalized with
  | Some data =>
      let '(temp_value, temp_unit) :=
        if pyval_eq_str preferred_unit "Fahrenheit"
        then (fahrenheit (temp_c data), "°F")
        else (PyNum.NInt (temp_c data), "°C") in
      let report :=
        "The weather in " +:+ PyStr.capitalize city +:+ " is " +:+
        condition data +:+ " with a temperature of " +:+
        PyNum.format_0f temp_value +:+ temp_unit +:+ "." in
      let result := success_dict report in
      (result, <["last_city_checked_stateful" := PStr city]> state)
  | None =>
      let error_msg :=
        "Sorry, I don't have weather information for '" +:+ city +:+ "'." in
      (error_dict error_msg, state)
  end.

(** [get_weather(city, tool_context)] over the case mapping of the
    interpreter: [lower] stands for [str.lower] and [capitalize] for
    [str.capitalize] on every string, whatever characters it holds.
    [get_weather] above is this function at the ASCII mapping. *)
Definition get_weather_with (lower capitalize : string → string)
    (city : string) (state : gmap string pyval)
  : gmap string string * gmap string pyval :=
  let preferred_unit :=
    default (PStr "Celsius") (state !! "user_preference_temperature_unit") in
  let city_normalized := PyStr.remove_spaces (lower city) in
  match mock_weather_db !! city_normalized with
  | Some data =>
      let '(temp_value, temp_unit) :=
        if pyval_eq_str preferred_unit "Fahrenheit"
        then (fahrenheit (temp_c data), "°F")
        else (PyNum.NInt (temp_c data), "°C") in
      let report :=
        "The weather in " +:+ capitalize city +:+ " is " +:+
        condition data +:+ " with a temperature of " +:+
        PyNum.format_0f temp_value +:+ temp_unit +:+ "." in
      let result := success_dict report in
      (result, <["last_city_checked_stateful" := PStr city]> state)
  | None =>
      let error_msg :=
        "Sorry, I don't have weather information for '" +:+ city +:+ "'." in
      (error_dict error_msg, state)
  end.

(** The [for content in reversed(...)] loop of [block_keyword_guardrail],
    over the history already reversed: most recent message first. *)
Fixpoint scan_user_text (reversed_contents : list Content) : string :=
  match reversed_contents with
  | [] => ""
  | content :: older =>
      if bool_decide (role content = Some "user") && parts_truthy (parts content)
      then
        match first_part_text (parts content) with
        | Some t => if PyStr.truthy t then t else scan_user_text older
        | None => scan_user_text older
        end
      else scan_user_text older
  end.

Definition last_user_message_text (llm_request : LlmRequest) : string :=
  match contents llm_request with
  | [] => ""
  | _ :: _ => scan_user_text (rev (contents llm_request))
  end.

Definition keyword_to_block : string := "BLOCK".

Definition blocked_response : LlmResponse :=
  {| response_content := Some
       {| role := Some "model";
          parts := Some [ {| text := Some
            ("I cannot process this request because it contains the blocked keyword '"
             +:+ keyword_to_block +:+ "'.") |} ] |} |}.

(** [block_keyword_guardrail(callback_context, llm_request)]: the returned
    optional response and the session state after the call. *)
Definition block_keyword_guardrail
    (state : gmap string pyval) (llm_request : LlmRequest)
  : option LlmResponse * gmap string pyval :=
  let last_text := last_user_message_text llm_request in
  if PyStr.str_in keyword_to_block (PyStr.upper last_text)
  then (Some blocked_response,
        <["guardrail_block_keyword_triggered" := PBool true]> state)
  else (None, state).

Definition target_tool_name : string := "get_weather".
Definition blocked_cities : list string := ["paris"].

(** [block_city_tool_guardrail(tool, args, tool_context)], [tool_name]
    being [tool.name]: the outcome and the session state after the call.
    [.lower()] exists on strings only. *)
Definition block_city_tool_guardrail
    (tool_name : string) (args : gmap string pyval) (state : gmap string pyval)
  : pyresult (option (gmap string string)) * gmap string pyval :=
  if String.eqb tool_name target_tool_name then
    let city_argument := default (PStr "") (args !! "city") in
    if pyval_truthy city_argument then
      match city_argument with
      | PStr city =>
          if bool_decide (PyStr.lower city ∈ blocked_cities) then
            (Returns (Some (error_dict
               ("Policy restriction: Weather checks for '" +:+
                PyStr.capitalize city +:+
                "' are currently disabled by a tool guardrail."))),
             <["guardrail_tool_block_triggered" := PBool true]> state)
          else (Returns None, state)
      | _ => (Raises AttributeError, state)
      end
    else (Returns None, state)
  else (Returns None, state).

(** [call_agent_async] is the same function in the three source files.
    The body of its [if event.is_final_response():] gives the new value of
    [final_response_text]. *)
Definition final_event_text (event : Event) (current : option string)
  : option string :=
  if match content event with
     | Some c => parts_truthy (parts c)
     | None => false
     end
  then first_part_text (content event ≫= parts)
  else if match actions event with
          | Some a => bool_decide (escalate a = Some true)
          | None => false
          end
  then Some ("Agent escalated: " +:+
             (if opt_str_truthy (error_message event)
              then default "" (error_message event)
              else "No specific message."))
  else current.

(** The [async for event in ...] loop: the value of [final_response_text]
    when the loop ends and the events left unconsumed by the [break]. *)
Fixpoint event_loop (events : list Event) (current : option string)
  : option string * list Event :=
  match events with
  | [] => (current, [])
  | event :: later =>
      if is_final_response event
      then (final_event_text event current, later)
      else event_loop later current
  end.

Definition default_response : string :=
  "Agent did not produce a final response.".

(** [final_response_text] when [call_agent_async] prints it. *)
Definition final_response_text (events : list Event) : option string :=
  fst (event_loop events (Some default_response)).

(** The line [call_agent_async] prints for the events the run yields. *)
Definition call_agent_async (events : list Event) : string :=
  "<<< Agent Response: " +:+ str_of_opt (final_response_text events).

(** The message [call_agent_async] builds from the query:
    [types.Content(role='user', parts=[types.Part(text=query)])]. *)
Definition new_message (query : string) : Content :=
  {| role := Some "user"; parts := Some [ {| text := Some query |} ] |}.

(** [say_hello(name)], the same in [agentteam_session.py]. *)
Definition say_hello (name : option string) : string :=
  match nonempty_str name with
  | Some name => "Hello, " +:+ name +:+ "!"
  | None => "Hello there!"
  end.

(** [say_goodbye()] *)
Definition say_goodbye : string := "Goodbye! Have a great day.".

(** One branch of [get_model_constants]: the model given by the caller
    when it is non-empty, else the environment variable [var], else the
    [ValueError] with the message [msg]. *)
Definition model_or_env (env : gmap string string)
    (given : option string) (var msg : string) : setup_result string :=
  match nonempty_str given with
  | Some m => Ok m
  | None =>
      match nonempty_str (getenv env var) with
      | Some m => Ok m
      | None => Fail (ValueError msg)
      end
  end.

(** [get_model_constants(model_short_name, model_gpt, model_claude,
    model_gemini)], the same in [agentteam_session.py]: the pair
    [(agent_model, model)].  With no branch taken, [agent_model] is the
    first unassigned local the [return] reads. *)
Definition get_model_constants (env : gmap string string)
    (model_short_name : string)
    (model_gpt model_claude model_gemini : option string)
  : setup_result (string * llm_model) :=
  if String.eqb model_short_name "gpt" then
    match model_or_env env model_gpt "MODEL_GPT"
            "MODEL_GPT is not defined in .env" with
    | Ok agent_model => Ok (agent_model, LiteLlm agent_model)
    | Fail e => Fail e
    end
  else if String.eqb model_short_name "claude" then
    match model_or_env env model_claude "MODEL_CLAUDE"
            "MODEL_CLAUDE is not defined in .env" with
    | Ok agent_model => Ok (agent_model, LiteLlm agent_model)
    | Fail e => Fail e
    end
  else if String.eqb model_short_name "gemini" then
    match model_or_env env model_gemini "MODEL_GEMINI"
            "MODEL_GEMINI is not defined in .env" with
    | Ok agent_model => Ok (agent_model, ModelStr agent_model)
    | Fail e => Fail e
    end
  else Fail (UnboundLocalError "agent_model").

End agentteam_statefulsession.

(** ** Vocabulary of the specification *)

Module Spec.

(** Two characters are the same letter up to case: equal, or an ASCII
    capital and the small letter 32 code points above it. *)
Definition case_variant (c d : ascii) : Prop :=
  c = d ∨
  ((65 ≤ PyStr.code c ≤ 90)%N ∧ PyStr.code d = (PyStr.code c + 32)%N) ∨
  ((65 ≤ PyStr.code d ≤ 90)%N ∧ PyStr.code c = (PyStr.code d + 32)%N).

(** Two strings are equal up to letter case. *)
Inductive eq_nocase : string → string → Prop :=
| eq_nocase_nil : eq_nocase "" ""
| eq_nocase_cons c d s t :
    case_variant c d → eq_nocase s t → eq_nocase (String c s) (String d t).

(** [kw] occurs in [s] at some position, in any letter case. *)
Definition contains_nocase (kw s : string) : Prop :=
  ∃ pre mid post, s = pre +:+ mid +:+ post ∧ eq_nocase mid kw.

(** The integer nearest to the fraction [n / d] ([0 < d]), a tie going to
    the even neighbour. *)
Definition round_ratio (n d : Z) : Z :=
  let q := (n / d)%Z in
  let r := (n mod d)%Z in
  match (2 * r ?= d)%Z with
  | Lt => q
  | Gt => (q + 1)%Z
  | Eq => if Z.even q then q else (q + 1)%Z
  end.

(** [(temp_c * 9/5) + 32] rounded to an integer. *)
Definition fahrenheit_rounded (temp_c : Z) : Z :=
  round_ratio (temp_c * 9 + 32 * 5) 5.

(** The keys of the mock weather table. *)
Definition known_city (k : string) : Prop :=
  k = "newyork" ∨ k = "london" ∨ k = "tokyo".

(** The message a backward scan of the history meets first with role
    "user": the most recent user message. *)
Definition most_recent_user_message (history : list Content) : option Content :=
  find (λ m, bool_decide (role m = Some "user")) (rev history).

(** A user message the keyword hook can read: role "user", at least one
    part, and a non-empty text in the first part. *)
Definition readable_user_message (m : Content) : Prop :=
  role m = Some "user" ∧
  ∃ p ps t, parts m = Some (p :: ps) ∧ text p = Some t ∧ t ≠ "".

(** The text of a message, whichever part holds it: the text of the
    first part that has one, empty or not; no text when no part has. *)
Definition message_text (m : Content) : option string :=
  head (omap text (default [] (parts m))).

(** The text of the most recent user message of a history. *)
Definition most_recent_user_text (history : list Content) : string :=
  default "" (most_recent_user_message history ≫= message_text).


(** No event of the sequence is flagged final. *)
Definition no_final (events : list Event) : Prop :=
  Forall (λ e, is_final_response e = false) events.

(** The event has no content to show: no content at all, or a content
    without parts. *)
Definition no_content (e : Event) : Prop :=
  content e = None ∨
  ∃ c, content e = Some c ∧ (parts c = None ∨ parts c = Some []).

(** The event carries an escalation signal. *)
Definition escalates (e : Event) : Prop :=
  ∃ a, actions e = Some a ∧ escalate a = Some true.

(** The event has no text content: it has no content, or no part of its
    content has a text. *)
Definition no_text_content (e : Event) : Prop :=
  content e ≫= message_text = None.



End Spec.

(** ** Sequences of calls on one session *)

Module Trace.

(** A call that can write the session state: the weather tool, the
    pre-model hook, the pre-tool hook. *)
Inductive call :=
| CallGetWeather (city : string)
| CallKeywordHook (llm_request : LlmRequest)
| CallToolHook (tool_name : string) (args : gmap string pyval).

(** The session state a call leaves. *)
Definition state_after (c : call) (state : gmap string pyval)
  : gmap string pyval :=
  match c with
  | CallGetWeather city =>
      (agentteam_statefulsession.get_weather city state).2
  | CallKeywordHook llm_request =>
      (agentteam_statefulsession.block_keyword_guardrail state llm_request).2
  | CallToolHook tool_name args =>
      (agentteam_statefulsession.block_city_tool_guardrail tool_name args state).2
  end.

(** The session state after the calls, made in the order of the list. *)
Definition state_after_calls (calls : list call) (state : gmap string pyval)
  : gmap string pyval :=
  foldl (λ st c, state_after c st) state calls.

(** The keys the three calls write. *)
Definition written_keys : list string :=
  [ "last_city_checked_stateful";
    "guardrail_block_keyword_triggered";
    "guardrail_tool_block_triggered" ].

End Trace.

(** The UTF-8 bytes of U+212A KELVIN SIGN, a character outside ASCII
    that [str.lower] maps to the letter k. *)
Definition kelvin_sign : string :=
  String (ascii_of_N 226) (String (ascii_of_N 132) (String (ascii_of_N 170) "")).

(** Every Kelvin sign of a string replaced by the letter k. *)
Fixpoint kelvin_to_k (s : string) : string :=
  match s with
  | EmptyString => EmptyString
  | String a s1 =>
      match s1 with
      | String b (String c rest) =>
          if (N_of_ascii a =? 226)%N && (N_of_ascii b =? 132)%N
             && (N_of_ascii c =? 170)%N
          then String "k" (kelvin_to_k rest)
          else String a (kelvin_to_k s1)
      | _ => String a (kelvin_to_k s1)
      end
  end.

(** A case mapping that does to the Kelvin sign and to the ASCII letters
    what [str.lower] does. *)
Definition lower_with_kelvin (s : string) : string :=
  PyStr.lower (kelvin_to_k s).

(** The same for [str.capitalize]. *)
Definition capitalize_with_kelvin (s : string) : string :=
  PyStr.capitalize (kelvin_to_k s).

(** The whole Celsius temperatures from -273 to 1000. *)
Definition celsius_range : list Z :=
  map (λ i, (Z.of_nat i - 273)%Z) (seq 0 1274).

(** * Properties *)

(** ** Strings *)

Section StringFacts.

Import PyStr.

Lemma startswith_spec (n h : string) :
  startswith n h = true ↔ ∃ post, h = n +:+ post.
Proof.
  revert h. induction n as [|a n IH]; intros h; simpl.
  - split; [intros _; now exists h | reflexivity].
  - destruct h as [|b h].
    + split; [discriminate | intros [post Hp]; discriminate].
    + rewrite andb_true_iff, IH, Ascii.eqb_eq. split.
      * intros [-> [post ->]]. now exists post.
      * intros [post Hp]. injection Hp as -> ->. split; [reflexivity | now exists post].
Qed.

Lemma str_in_spec (n h : string) :
  str_in n h = true ↔ ∃ pre post, h = pre +:+ n +:+ post.
Proof.
  induction h as [|b h IH].
  - simpl. rewrite orb_false_r, startswith_spec. split.
    + intros [post Hp]. now exists "", post.
    + intros [pre [post Hp]]. destruct pre; [now exists post | discriminate].
  - cbn [str_in]. rewrite orb_true_iff, startswith_spec, IH. split.
    + intros [[post Hp] | [pre [post Hp]]].
      * now exists "", post.
      * exists (String b pre), post. simpl. now rewrite Hp.
    + intros [pre [post Hp]]. destruct pre as [|x pre].
      * left. now exists post.
      * right. injection Hp as -> ->. now exists pre, post.
Qed.

Lemma upper_app (a b : string) : upper (a +:+ b) = upper a +:+ upper b.
Proof. induction a as [|x a IH]; simpl; [reflexivity | now rewrite IH]. Qed.

Lemma upper_split (s a b : string) :
  upper s = a +:+ b → ∃ s1 s2, s = s1 +:+ s2 ∧ upper s1 = a ∧ upper s2 = b.
Proof.
  revert s. induction a as [|x a IH]; intros s H.
  - now exists "", s.
  - destruct s as [|c s]; [discriminate |].
    simpl in H. injection H as Hx Hs.
    destruct (IH _ Hs) as (s1 & s2 & -> & H1 & H2).
    exists (String c s1), s2. simpl. now rewrite Hx, H1.
Qed.

Lemma code_inj (c d : ascii) : code c = code d → c = d.
Proof.
  unfold code. intros H.
  rewrite <- (ascii_N_embedding c), <- (ascii_N_embedding d). now rewrite H.
Qed.

Lemma code_bound (c : ascii) : (code c < 256)%N.
Proof. apply N_ascii_bounded. Qed.

Lemma code_ascii_of_N (n : N) : (n < 256)%N → code (ascii_of_N n) = n.
Proof. apply N_ascii_embedding. Qed.

(** What [upper_char] does to the code of a character. *)
Lemma code_upper_char (c : ascii) :
  code (upper_char c) =
    if is_ascii_lower c then (code c - 32)%N else code c.
Proof.
  unfold upper_char. destruct (is_ascii_lower c) eqn:E; [|reflexivity].
  apply code_ascii_of_N. pose proof (code_bound c). lia.
Qed.

Lemma code_lower_char (c : ascii) :
  code (lower_char c) =
    if is_ascii_upper c then (code c + 32)%N else code c.
Proof.
  unfold lower_char. destruct (is_ascii_upper c) eqn:E; [|reflexivity].
  apply code_ascii_of_N. unfold is_ascii_upper in E.
  apply andb_true_iff in E as [_ E%N.leb_le]. lia.
Qed.

(** On a character [d] that [upper_char] fixes, being a case variant of
    [d] is having [d] as upper case. *)
Lemma case_variant_upper (c d : ascii) :
  upper_char d = d → (Spec.case_variant c d ↔ upper_char c = d).
Proof.
  intros Hd. apply (f_equal code) in Hd. rewrite code_upper_char in Hd.
  unfold Spec.case_variant. split.
  - intros H. apply code_inj. rewrite code_upper_char.
    unfold is_ascii_lower in *.
    destruct H as [-> | [[Hc Hcd] | [Hc Hcd]]].
    + exact Hd.
    + destruct ((97 <=? code d) && (code d <=? 122))%N eqn:E; [lia |].
      apply andb_false_iff in E as [E%N.leb_gt | E%N.leb_gt]; lia.
    + destruct ((97 <=? code c) && (code c <=? 122))%N eqn:E; [lia |].
      apply andb_false_iff in E as [E%N.leb_gt | E%N.leb_gt]; lia.
  - intros <-. rewrite !code_upper_char. unfold is_ascii_lower.
    destruct ((97 <=? code c) && (code c <=? 122))%N eqn:E.
    + apply andb_true_iff in E as [E1%N.leb_le E2%N.leb_le].
      right; right. lia.
    + left. apply code_inj. rewrite code_upper_char.
      unfold is_ascii_lower. now rewrite E.
Qed.


Lemma eq_nocase_upper (s kw : string) :
  upper kw = kw → (Spec.eq_nocase s kw ↔ upper s = kw).
Proof.
  revert s. induction kw as [|d kw IH]; intros s Hkw.
  - split.
    + intros H. inversion H. reflexivity.
    + destruct s; [constructor | discriminate].
  - simpl in Hkw. injection Hkw as Hd Hkw'. split.
    + intros H. inversion H as [|c d' s' t' Hcd Hst]; subst. simpl.
      apply (case_variant_upper _ _ Hd) in Hcd. apply (IH _ Hkw') in Hst.
      now rewrite Hcd, Hst.
    + destruct s as [|c s]; [discriminate |]. simpl. intros H.
      injection H as Hc Hs. constructor.
      * now apply case_variant_upper.
      * now apply IH.
Qed.


(** The check [kw in s.upper()] finds exactly the occurrences of [kw] in
    any letter case, for a keyword written in capitals. *)
Lemma str_in_upper_spec (kw s : string) :
  upper kw = kw →
  (str_in kw (upper s) = true ↔ Spec.contains_nocase kw s).
Proof.
  intros Hkw. rewrite str_in_spec. unfold Spec.contains_nocase. split.
  - intros (pre & post & H).
    apply upper_split in H as (s1 & s2 & -> & H1 & H2).
    apply upper_split in H2 as (s3 & s4 & -> & H3 & H4).
    exists s1, s3, s4. split; [reflexivity |]. now apply eq_nocase_upper.
  - intros (pre & mid & post & -> & H).
    apply eq_nocase_upper in H; [|assumption].
    exists (upper pre), (upper post). now rewrite !upper_app, H.
Qed.

End StringFacts.

(** ** The weather tool *)

Section WeatherTool.

Import agentteam_statefulsession.

Local Abbreviation normalized city := (PyStr.remove_spaces (PyStr.lower city)).
Local Abbreviation unit_key := "user_preference_temperature_unit".

Lemma pyval_eq_str_true (v : pyval) (s : string) :
  pyval_eq_str v s = true ↔ v = PStr s.
Proof.
  destruct v; simpl; try (split; [discriminate | congruence]).
  rewrite String.eqb_eq. split; congruence.
Qed.

(** The entries of the stateful table, one by one. *)
Lemma mock_weather_db_lookup (k : string) (data : weather_data) :
  mock_weather_db !! k = Some data →
  (k = "newyork" ∧ data = {| temp_c := 25; condition := "sunny" |}) ∨
  (k = "london" ∧ data = {| temp_c := 15; condition := "cloudy" |}) ∨
  (k = "tokyo" ∧ data = {| temp_c := 18; condition := "light rain" |}).
Proof.
  unfold mock_weather_db. rewrite !lookup_insert, lookup_empty.
  repeat case_decide; intros Hk; simplify_eq; auto.
Qed.

Lemma mock_weather_db_known (k : string) :
  is_Some (mock_weather_db !! k) ↔ Spec.known_city k.
Proof.
  unfold Spec.known_city. split.
  - intros [data H]. apply mock_weather_db_lookup in H. tauto.
  - intros [-> | [-> | ->]]; eexists; reflexivity.
Qed.

Lemma stateless_db_known (k : string) :
  is_Some (agent_session.mock_weather_db !! k) ↔ Spec.known_city k.
Proof.
  unfold Spec.known_city, agent_session.mock_weather_db.
  rewrite !lookup_insert, lookup_empty. split.
  - repeat case_decide; intros [r Hr]; simplify_eq; auto.
  - intros [-> | [-> | ->]]; eexists; reflexivity.
Qed.

Lemma stateless_db_success (k : string) (entry : gmap string string) :
  agent_session.mock_weather_db !! k = Some entry →
  ∃ report, entry = success_dict report.
Proof.
  unfold agent_session.mock_weather_db.
  rewrite !lookup_insert, lookup_empty.
  repeat case_decide; intros He; simplify_eq; eexists; reflexivity.
Qed.

(** The float arithmetic and the [.0f] format agree, on every entry of
    the table, with exact arithmetic rounded to the nearest integer. *)
Lemma format_fahrenheit_db (k : string) (data : weather_data) :
  mock_weather_db !! k = Some data →
  PyNum.format_0f (fahrenheit (temp_c data)) =
    PyStr.of_Z (Spec.fahrenheit_rounded (temp_c data)).
Proof.
  intros H. apply mock_weather_db_lookup in H.
  destruct H as [[_ ->] | [[_ ->] | [_ ->]]]; vm_compute; reflexivity.
Qed.

Lemma format_celsius_db (k : string) (data : weather_data) :
  mock_weather_db !! k = Some data →
  PyNum.format_0f (PyNum.NInt (temp_c data)) = PyStr.of_Z (temp_c data).
Proof.
  intros H. apply mock_weather_db_lookup in H.
  destruct H as [[_ ->] | [[_ ->] | [_ ->]]]; vm_compute; reflexivity.
Qed.

(** The success path of the stateful tool, with the unit test left
    as the code has it. *)
Lemma get_weather_known (city : string) (state : gmap string pyval)
    (data : weather_data) :
  mock_weather_db !! normalized city = Some data →
  get_weather city state =
    (success_dict
       ("The weather in " +:+ PyStr.capitalize city +:+ " is " +:+
        condition data +:+ " with a temperature of " +:+
        (let fahr := pyval_eq_str
                       (default (PStr "Celsius") (state !! unit_key))
                       "Fahrenheit" in
         PyNum.format_0f
           (if fahr then fahrenheit (temp_c data)
            else PyNum.NInt (temp_c data)) +:+
         (if fahr then "°F" else "°C") +:+ ".")),
     <["last_city_checked_stateful" := PStr city]> state).
Proof.
  intros H. unfold get_weather. rewrite H.
  destruct (pyval_eq_str _ _); reflexivity.
Qed.

Lemma get_weather_unknown (city : string) (state : gmap string pyval) :
  mock_weather_db !! normalized city = None →
  get_weather city state =
    (error_dict
       ("Sorry, I don't have weather information for '" +:+ city +:+ "'."),
     state).
Proof.
  intros H. unfold get_weather. now rewrite H.
Qed.

(** C3: for a city of the mock table and the preference "Fahrenheit",
    the stateful get_weather succeeds with a report that gives
    (temp_c * 9/5) + 32 rounded to an integer, followed by the degree
    sign and F; for "New York" the report contains 77 degrees F; with the
    preference "Celsius" the report for "London" contains 15 degrees C
    and the condition cloudy. *)
Theorem get_weather_fahrenheit_report :
  (∀ (city : string) (state : gmap string pyval) (data : weather_data),
      mock_weather_db !! PyStr.remove_spaces (PyStr.lower city) = Some data →
      state !! "user_preference_temperature_unit" = Some (PStr "Fahrenheit") →
      (get_weather city state).1 =
        success_dict
          ("The weather in " +:+ PyStr.capitalize city +:+ " is " +:+
           condition data +:+ " with a temperature of " +:+
           PyStr.of_Z (Spec.fahrenheit_rounded (temp_c data)) +:+ "°F" +:+ "."))
  ∧ (∀ state : gmap string pyval,
      state !! "user_preference_temperature_unit" = Some (PStr "Fahrenheit") →
      ∃ report,
        (get_weather "New York" state).1 = success_dict report ∧
        PyStr.str_in "77°F" report = true)
  ∧ (∀ state : gmap string pyval,
      state !! "user_preference_temperature_unit" = Some (PStr "Celsius") →
      ∃ report,
        (get_weather "London" state).1 = success_dict report ∧
        PyStr.str_in "15°C" report = true ∧
        PyStr.str_in "cloudy" report = true).
Proof.
  split; [| split].
  - intros city state data Hdb Hunit.
    rewrite (get_weather_known city state data Hdb).
    rewrite Hunit.
    change (pyval_eq_str
              (default (PStr "Celsius") (Some (PStr "Fahrenheit")))
              "Fahrenheit") with true.
    cbv zeta. cbn [fst]. now rewrite (format_fahrenheit_db _ _ Hdb).
  - intros state Hunit.
    rewrite (get_weather_known "New York" state
               {| temp_c := 25; condition := "sunny" |} eq_refl).
    rewrite Hunit. eexists. split; [reflexivity |].
    vm_compute. reflexivity.
  - intros state Hunit.
    rewrite (get_weather_known "London" state
               {| temp_c := 15; condition := "cloudy" |} eq_refl).
    rewrite Hunit. eexists. split; [reflexivity |].
    split; vm_compute; reflexivity.
Qed.

(** The two paths of the stateful tool over any case mapping. *)
Lemma get_weather_with_unknown (lower capitalize : string → string)
    (city : string) (state : gmap string pyval) :
  mock_weather_db !! PyStr.remove_spaces (lower city) = None →
  get_weather_with lower capitalize city state =
    (error_dict
       ("Sorry, I don't have weather information for '" +:+ city +:+ "'."),
     state).
Proof. intros H. unfold get_weather_with. now rewrite H. Qed.

Lemma get_weather_with_known (lower capitalize : string → string)
    (city : string) (state : gmap string pyval) (data : weather_data) :
  mock_weather_db !! PyStr.remove_spaces (lower city) = Some data →
  ∃ report,
    get_weather_with lower capitalize city state =
      (success_dict report,
       <["last_city_checked_stateful" := PStr city]> state).
Proof.
  intros H. unfold get_weather_with. rewrite H.
  destruct (pyval_eq_str _ _); eexists; reflexivity.
Qed.

(** At the ASCII case mapping the general tools are the tools above. *)
Lemma get_weather_with_ascii (city : string) (state : gmap string pyval) :
  get_weather_with PyStr.lower PyStr.capitalize city state
    = get_weather city state ∧
  agent_session.get_weather_with PyStr.lower city
    = agent_session.get_weather city.
Proof. split; reflexivity. Qed.

(** C8: for every city string (and every session state), and whatever the
    case mapping of the interpreter does to the characters of the city,
    get_weather returns one of two shapes: status success with a report
    when the normalized city (lower-cased, spaces removed) is a key of the
    mock table, status error with the message "Sorry, I don't have weather
    information for '<city>'." otherwise.  Both variants are total
    functions into dictionaries: no other shape, no exception. *)
Theorem get_weather_two_shapes
    (lower capitalize : string → string)
    (city : string) (state : gmap string pyval) :
  let k := PyStr.remove_spaces (lower city) in
  let msg := "Sorry, I don't have weather information for '" +:+ city +:+ "'." in
  (Spec.known_city k ∧
   (∃ report, agent_session.get_weather_with lower city = success_dict report) ∧
   (∃ report,
      (get_weather_with lower capitalize city state).1 = success_dict report))
  ∨
  (¬ Spec.known_city k ∧
   agent_session.get_weather_with lower city = error_dict msg ∧
   (get_weather_with lower capitalize city state).1 = error_dict msg).
Proof.
  intros k msg.
  destruct (mock_weather_db !! k) as [data|] eqn:Hs.
  - left. assert (Hk : Spec.known_city k) by (apply mock_weather_db_known; eauto).
    split; [exact Hk | split].
    + apply stateless_db_known in Hk as [entry He].
      unfold agent_session.get_weather_with. fold k. rewrite He.
      eapply stateless_db_success, He.
    + destruct (get_weather_with_known lower capitalize city state data Hs)
        as [report Hr].
      exists report. now rewrite Hr.
  - right. assert (Hk : ¬ Spec.known_city k).
    { rewrite <- mock_weather_db_known, Hs. intros [? ?]; discriminate. }
    split; [exact Hk | split].
    + unfold agent_session.get_weather_with. fold k.
      destruct (agent_session.mock_weather_db !! k) eqn:He; [|reflexivity].
      exfalso. apply Hk, stateless_db_known. eauto.
    + now rewrite (get_weather_with_unknown lower capitalize city state Hs).
Qed.

(** C9: for a city that is not in the mock table (its normalization,
    under whatever the case mapping of the interpreter gives, is not a
    key), the stateful get_weather returns its error result and the very
    session state it was given: no key is written on the error path.  On
    the other path, and only there, "last_city_checked_stateful" is set
    to the city. *)
Theorem get_weather_error_keeps_state
    (lower capitalize : string → string)
    (city : string) (state : gmap string pyval) :
  (¬ Spec.known_city (PyStr.remove_spaces (lower city)) →
   get_weather_with lower capitalize city state =
     (error_dict
        ("Sorry, I don't have weather information for '" +:+ city +:+ "'."),
      state))
  ∧
  (Spec.known_city (PyStr.remove_spaces (lower city)) →
   (get_weather_with lower capitalize city state).2 =
     <["last_city_checked_stateful" := PStr city]> state).
Proof.
  split.
  - intros Hk. apply get_weather_with_unknown.
    destruct (mock_weather_db !! PyStr.remove_spaces (lower city)) eqn:H;
      [|reflexivity].
    exfalso. apply Hk, mock_weather_db_known. eauto.
  - intros [data Hd]%mock_weather_db_known.
    destruct (get_weather_with_known lower capitalize city state data Hd)
      as [report Hr].
    now rewrite Hr.
Qed.

(** The success path is where "last_city_checked_stateful" is written. *)
Lemma get_weather_success_writes_city (city : string) (state : gmap string pyval) :
  Spec.known_city (PyStr.remove_spaces (PyStr.lower city)) →
  (get_weather city state).2 = <["last_city_checked_stateful" := PStr city]> state.
Proof.
  intros [data H]%mock_weather_db_known.
  now rewrite (get_weather_known city state data H).
Qed.

(** C10: the unit preference is compared with the exact string
    "Fahrenheit": for a city of the mock table and any other preference
    value (another spelling, another kind of value, or no value at all),
    the stateful get_weather reports the Celsius temperature. *)
Theorem get_weather_celsius_unless_exact_fahrenheit
    (city : string) (state : gmap string pyval) (data : weather_data) :
  mock_weather_db !! PyStr.remove_spaces (PyStr.lower city) = Some data →
  state !! "user_preference_temperature_unit" ≠ Some (PStr "Fahrenheit") →
  (get_weather city state).1 =
    success_dict
      ("The weather in " +:+ PyStr.capitalize city +:+ " is " +:+
       condition data +:+ " with a temperature of " +:+
       PyStr.of_Z (temp_c data) +:+ "°C" +:+ ".").
Proof.
  intros Hdb Hunit.
  rewrite (get_weather_known city state data Hdb).
  assert (E : pyval_eq_str
                (default (PStr "Celsius")
                   (state !! "user_preference_temperature_unit"))
                "Fahrenheit" = false).
  { destruct (state !! "user_preference_temperature_unit") as [v|] eqn:Hv;
      [|reflexivity].
    simpl. destruct (pyval_eq_str v "Fahrenheit") eqn:Ev; [|reflexivity].
    apply pyval_eq_str_true in Ev. congruence. }
  cbv zeta. rewrite E. cbn [fst]. now rewrite (format_celsius_db _ _ Hdb).
Qed.

End WeatherTool.

(** ** The guardrail hooks *)

Section Guardrails.

Import agentteam_statefulsession.

(** *** The pre-model hook *)

(** One turn of the backward scan: a readable user message ends it with
    the text of its first part, any other message is passed over. *)
Lemma scan_user_text_step (m : Content) (older : list Content) :
  (Spec.readable_user_message m ∧
   first_part_text (parts m) = Some (scan_user_text (m :: older))) ∨
  (¬ Spec.readable_user_message m ∧
   scan_user_text (m :: older) = scan_user_text older).
Proof.
  unfold Spec.readable_user_message. destruct m as [r ps]. cbn.
  case_bool_decide as Hr; cbn.
  - destruct ps as [[|p ps]|]; cbn.
    + right. split; [|reflexivity]. intros (_ & p & ps & t & [=] & _).
    + destruct p as [[t|]]; cbn.
      * destruct t as [|c t]; cbn.
        -- right. split; [|reflexivity].
           intros (_ & p & ps' & t & [= <- <-] & [= <-] & Ht). now apply Ht.
        -- left. split; [|reflexivity]. split; [assumption|].
           eexists _, _, _. repeat split. discriminate.
      * right. split; [|reflexivity].
        intros (_ & p & ps' & t & [= <- <-] & [=] & _).
    + right. split; [|reflexivity]. intros (_ & p & ps & t & [=] & _).
  - right. split; [|reflexivity]. now intros [? _].
Qed.

Lemma scan_user_text_spec (reversed_contents : list Content) :
  (∃ newer m older,
      reversed_contents = newer ++ m :: older ∧
      Forall (λ m', ¬ Spec.readable_user_message m') newer ∧
      Spec.readable_user_message m ∧
      first_part_text (parts m) = Some (scan_user_text reversed_contents)) ∨
  (Forall (λ m', ¬ Spec.readable_user_message m') reversed_contents ∧
   scan_user_text reversed_contents = "").
Proof.
  induction reversed_contents as [|m l IH].
  - right. split; [constructor | reflexivity].
  - destruct (scan_user_text_step m l) as [[Hm Ht] | [Hm Ht]].
    + left. exists [], m, l.
      split; [reflexivity |]. split; [constructor |]. now split.
    + rewrite Ht. destruct IH as [(newer & m' & older & -> & Hn & Hm' & Ht') | [Hall Hs]].
      * left. exists (m :: newer), m', older.
        split; [reflexivity |]. split; [now constructor |]. now split.
      * right. split; [constructor |]; assumption.
Qed.

Lemma last_user_message_text_rev (llm_request : LlmRequest) :
  last_user_message_text llm_request =
    scan_user_text (rev (contents llm_request)).
Proof.
  unfold last_user_message_text. now destruct (contents llm_request).
Qed.

(** C4, as amended: the text the pre-model hook inspects is the text of
    the first part of the most recent message that has role "user", at
    least one part and a non-empty text in its first part; user messages
    after it that have no such text are passed over, and when the history
    has no such message the inspected text is empty. *)
Theorem last_user_message_text_spec (llm_request : LlmRequest) :
  (∃ older m newer,
      contents llm_request = older ++ m :: newer ∧
      Spec.readable_user_message m ∧
      Forall (λ m', ¬ Spec.readable_user_message m') newer ∧
      first_part_text (parts m) = Some (last_user_message_text llm_request)) ∨
  (Forall (λ m', ¬ Spec.readable_user_message m') (contents llm_request) ∧
   last_user_message_text llm_request = "").
Proof.
  rewrite last_user_message_text_rev.
  destruct (scan_user_text_spec (rev (contents llm_request)))
    as [(newer & m & older & Hrev & Hn & Hm & Ht) | [Hall Hs]].
  - left. exists (rev older), m, (rev newer).
    apply (f_equal (@rev Content)) in Hrev.
    rewrite rev_involutive, rev_app_distr in Hrev. cbn in Hrev.
    rewrite <- app_assoc in Hrev. cbn in Hrev.
    split; [assumption |]. split; [assumption |]. split; [|assumption].
    apply Forall_forall. intros x Hx%list_elem_of_In%in_rev%list_elem_of_In.
    revert x Hx. now apply Forall_forall.
  - right. split; [|assumption].
    apply Forall_forall. intros x Hx%list_elem_of_In%in_rev%list_elem_of_In.
    revert x Hx. now apply Forall_forall.
Qed.

(** C4, as stated, fails: the most recent user message holds the empty
    text, and the hook inspects the text of an older user message. *)
Lemma last_user_message_text_not_most_recent :
  let history :=
    [ {| role := Some "user";
         parts := Some [ {| text := Some "BLOCK it" |} ] |};
      {| role := Some "user";
         parts := Some [ {| text := Some "" |} ] |} ] in
  Spec.most_recent_user_text history = "" ∧
  last_user_message_text {| contents := history |} = "BLOCK it" ∧
  last_user_message_text {| contents := history |}
    ≠ Spec.most_recent_user_text history.
Proof. cbn. repeat split. discriminate. Qed.

(** When the most recent user message is readable, its first-part text
    is the inspected text. *)
Lemma last_user_message_text_latest (older : list Content) (m : Content) :
  Spec.readable_user_message m →
  first_part_text (parts m) =
    Some (last_user_message_text {| contents := older ++ [m] |}).
Proof.
  intros Hm. rewrite last_user_message_text_rev. cbn [contents].
  rewrite rev_app_distr. cbn [rev app].
  destruct (scan_user_text_step m (rev older)) as [[_ Ht] | [Hn _]];
    [exact Ht | contradiction].
Qed.

(** The decision of the pre-model hook in terms of the text it has
    extracted: when that text contains "BLOCK" in any letter case at any
    position, the hook returns a response with role "model" that announces
    the block and sets "guardrail_block_keyword_triggered" to true in the
    session state; when it does not, the hook returns None and the state
    is untouched. *)
Theorem block_keyword_guardrail_decision
    (state : gmap string pyval) (llm_request : LlmRequest) :
  (Spec.contains_nocase "BLOCK" (last_user_message_text llm_request) →
   block_keyword_guardrail state llm_request =
     (Some {| response_content := Some
                {| role := Some "model";
                   parts := Some [ {| text := Some
"I cannot process this request because it contains the blocked keyword 'BLOCK'."
                                    |} ] |} |},
      <["guardrail_block_keyword_triggered" := PBool true]> state))
  ∧
  (¬ Spec.contains_nocase "BLOCK" (last_user_message_text llm_request) →
   block_keyword_guardrail state llm_request = (None, state)).
Proof.
  unfold block_keyword_guardrail, keyword_to_block.
  pose proof (str_in_upper_spec "BLOCK"
                (last_user_message_text llm_request) eq_refl) as Hspec.
  destruct (PyStr.str_in "BLOCK"
              (PyStr.upper (last_user_message_text llm_request))) eqn:E.
  - split; [reflexivity |]. intros Hn. exfalso. now apply Hn, Hspec.
  - split; [|reflexivity]. intros Hc. apply Hspec in Hc. discriminate.
Qed.

(** *** The pre-tool hook *)

Lemma lower_paris_capitalize (city : string) :
  PyStr.lower city = "paris" → PyStr.capitalize city = "Paris".
Proof.
  destruct city as [|c city]; [discriminate |]. cbn.
  intros [= Hc Hrest]. rewrite Hrest. f_equal.
  apply code_inj. rewrite code_upper_char.
  apply (f_equal PyStr.code) in Hc. rewrite code_lower_char in Hc.
  unfold PyStr.is_ascii_lower, PyStr.is_ascii_upper in *.
  change (PyStr.code "p"%char) with 112%N in Hc.
  change (PyStr.code "P"%char) with 80%N.
  destruct ((65 <=? PyStr.code c) && (PyStr.code c <=? 90))%N eqn:E.
  - assert (PyStr.code c = 80%N) as -> by lia. reflexivity.
  - rewrite Hc. reflexivity.
Qed.

Lemma in_blocked_cities (s : string) : s ∈ blocked_cities ↔ s = "paris".
Proof. unfold blocked_cities. rewrite list_elem_of_singleton. tauto. Qed.

(** The hook on a text city argument of the target tool. *)
Lemma block_city_tool_guardrail_text
    (args : gmap string pyval) (state : gmap string pyval) (city : string) :
  args !! "city" = Some (PStr city) →
  block_city_tool_guardrail "get_weather" args state =
    if bool_decide (PyStr.lower city = "paris")
    then (Returns (Some (error_dict
"Policy restriction: Weather checks for 'Paris' are currently disabled by a tool guardrail.")),
          <["guardrail_tool_block_triggered" := PBool true]> state)
    else (Returns None, state).
Proof.
  intros Hc. unfold block_city_tool_guardrail. cbn [String.eqb]. rewrite Hc.
  change (target_tool_name) with "get_weather".
  replace ("get_weather" =? "get_weather")%string with true by reflexivity.
  cbn [default id pyval_truthy].
  destruct city as [|c city].
  - cbn. case_bool_decide; [discriminate | reflexivity].
  - cbn [PyStr.truthy].
    case_bool_decide as Hin; case_bool_decide as Hp;
      rewrite in_blocked_cities in Hin; try contradiction; [|reflexivity].
    now rewrite (lower_paris_capitalize _ Hp).
Qed.

Lemma block_city_tool_guardrail_other_tool
    (tool_name : string) (args state : gmap string pyval) :
  tool_name ≠ "get_weather" →
  block_city_tool_guardrail tool_name args state = (Returns None, state).
Proof.
  intros Hn. unfold block_city_tool_guardrail, target_tool_name.
  destruct (String.eqb_spec tool_name "get_weather"); [contradiction | reflexivity].
Qed.

Lemma block_city_tool_guardrail_no_city (args state : gmap string pyval) :
  args !! "city" = None →
  block_city_tool_guardrail "get_weather" args state = (Returns None, state).
Proof.
  intros Hc. unfold block_city_tool_guardrail. now rewrite Hc.
Qed.

(** Outside the text arguments the tool declares, a true value that is
    not a string has no [lower] method. *)
Lemma block_city_tool_guardrail_not_text (args state : gmap string pyval)
    (v : pyval) :
  args !! "city" = Some v → pyval_truthy v = true →
  (∀ city, v ≠ PStr city) →
  block_city_tool_guardrail "get_weather" args state
    = (Raises AttributeError, state).
Proof.
  intros Hc Ht Hv. unfold block_city_tool_guardrail. rewrite Hc.
  cbn [default id]. replace (_ =? _)%string with true by reflexivity.
  rewrite Ht. destruct v; try reflexivity. now destruct (Hv s).
Qed.




End Guardrails.

(** ** The turn dispatcher *)

Section Dispatcher.

Import agentteam_statefulsession.

(** The loop passes over the events that are not final. *)
Lemma event_loop_skip (pre rest : list Event) (current : option string) :
  Spec.no_final pre →
  event_loop (pre ++ rest) current = event_loop rest current.
Proof.
  induction 1 as [|e pre He _ IH]; [reflexivity |].
  cbn. now rewrite He.
Qed.

(** The loop stops at the first final event: the events after it are
    left unconsumed. *)
Lemma event_loop_first_final
    (pre : list Event) (e : Event) (post : list Event)
    (current : option string) :
  Spec.no_final pre → is_final_response e = true →
  event_loop (pre ++ e :: post) current = (final_event_text e current, post).
Proof.
  intros Hpre He. rewrite (event_loop_skip _ _ _ Hpre). cbn. now rewrite He.
Qed.

Lemma event_loop_no_final (events : list Event) (current : option string) :
  Spec.no_final events → event_loop events current = (current, []).
Proof.
  intros H. rewrite <- (app_nil_r events). now rewrite event_loop_skip.
Qed.

(** Every sequence either has no final event or splits at its first. *)
Lemma first_final_split (events : list Event) :
  Spec.no_final events ∨
  ∃ pre e post, events = pre ++ e :: post ∧
                Spec.no_final pre ∧ is_final_response e = true.
Proof.
  induction events as [|e l IH].
  - left. constructor.
  - destruct (is_final_response e) eqn:He.
    + right. exists [], e, l. split; [reflexivity |]. split; [constructor | assumption].
    + destruct IH as [Hn | (pre & e' & post & -> & Hpre & He')].
      * left. now constructor.
      * right. exists (e :: pre), e', post.
        split; [reflexivity |]. split; [now constructor | assumption].
Qed.

(** The response of every event sequence: the default sentence when no
    event is final, what the first final event gives otherwise. *)
Lemma final_response_text_cases (events : list Event) :
  (Spec.no_final events ∧
   final_response_text events = Some default_response) ∨
  (∃ pre e post, events = pre ++ e :: post ∧
                 Spec.no_final pre ∧ is_final_response e = true ∧
                 final_response_text events =
                   final_event_text e (Some default_response)).
Proof.
  unfold final_response_text.
  destruct (first_final_split events) as [Hn | (pre & e & post & -> & Hn & He)].
  - left. split; [assumption |]. now rewrite (event_loop_no_final _ _ Hn).
  - right. exists pre, e, post.
    rewrite (event_loop_first_final _ _ _ _ Hn He). auto.
Qed.

(** C5, as stated, fails: the fallback is another sentence. *)
Lemma no_final_fallback_is_not_spec_sentence :
  Spec.no_final [] ∧
  final_response_text [] = Some "Agent did not produce a final response." ∧
  final_response_text [] ≠ Some "no final response produced".
Proof. split; [constructor |]. split; [reflexivity | discriminate]. Qed.

(** C5, as amended: for every event sequence in which no event is flagged
    final, the response text is the fixed sentence "Agent did not produce
    a final response.", the same for every such sequence. *)
Theorem no_final_fallback (events : list Event) :
  Spec.no_final events →
  final_response_text events = Some "Agent did not produce a final response."
  ∧ call_agent_async events =
      "<<< Agent Response: Agent did not produce a final response.".
Proof.
  intros H. unfold call_agent_async, final_response_text.
  rewrite (event_loop_no_final _ _ H). split; reflexivity.
Qed.

(** The escalation branch of the final event. *)
Lemma final_event_text_escalation (e : Event) (current : option string) :
  Spec.no_content e → Spec.escalates e →
  final_event_text e current =
    Some ("Agent escalated: " +:+
          (if opt_str_truthy (error_message e)
           then default "" (error_message e)
           else "No specific message.")).
Proof.
  intros Hc (a & Ha & Hesc). unfold final_event_text.
  rewrite Ha, Hesc.
  destruct Hc as [-> | (c & -> & [-> | ->])]; reflexivity.
Qed.

(** C6, as stated, fails: the first (and only) final event has a content
    whose single part has no text, so it has no text content, and it
    carries an escalation signal and an error text; the response is the
    None of that part, not an escalation message. *)
Lemma escalation_hidden_by_textless_content :
  let e := {| is_final_response := true;
              content := Some {| role := Some "model";
                                 parts := Some [ {| text := None |} ] |};
              actions := Some {| escalate := Some true |};
              error_message := Some "boom" |} in
  Spec.no_text_content e ∧ Spec.escalates e ∧
  final_response_text [e] = None ∧
  final_response_text [e] ≠ Some "Agent escalated: boom".
Proof.
  intros e. split; [reflexivity |]. split; [| split].
  - eexists. split; reflexivity.
  - reflexivity.
  - discriminate.
Qed.

(** C6, as amended: when the first final event has no content parts (no
    content, or a content without parts) and carries an escalation signal,
    the response is "Agent escalated: " followed by the error text of
    that event, and by "No specific message." when the error text is
    absent or empty. *)
Theorem escalation_response
    (pre : list Event) (e : Event) (post : list Event) :
  Spec.no_final pre → is_final_response e = true →
  Spec.no_content e → Spec.escalates e →
  (∀ msg, error_message e = Some msg → msg ≠ "" →
     final_response_text (pre ++ e :: post) =
       Some ("Agent escalated: " +:+ msg))
  ∧
  (error_message e = None ∨ error_message e = Some "" →
     final_response_text (pre ++ e :: post) =
       Some "Agent escalated: No specific message.").
Proof.
  intros Hpre He Hc Hesc. unfold final_response_text.
  rewrite (event_loop_first_final _ _ _ _ Hpre He). cbn [fst].
  rewrite (final_event_text_escalation _ _ Hc Hesc). split.
  - intros msg -> Hmsg. destruct msg; [contradiction | reflexivity].
  - intros [-> | ->]; reflexivity.
Qed.

(** C7: the response depends only on the events up to and including the
    first final one: the loop stops there, the later events are left
    unconsumed, and any two sequences that share that prefix give the
    same response. *)
Theorem response_determined_by_first_final
    (pre : list Event) (e : Event) (post post' : list Event) :
  Spec.no_final pre → is_final_response e = true →
  (∀ current,
     event_loop (pre ++ e :: post) current = (final_event_text e current, post))
  ∧ final_response_text (pre ++ e :: post) = final_response_text (pre ++ [e])
  ∧ final_response_text (pre ++ e :: post) = final_response_text (pre ++ e :: post')
  ∧ call_agent_async (pre ++ e :: post) = call_agent_async (pre ++ e :: post').
Proof.
  intros Hpre He.
  assert (Hresp : ∀ rest, final_response_text (pre ++ e :: rest) =
                          final_event_text e (Some default_response)).
  { intros rest. unfold final_response_text.
    now rewrite (event_loop_first_final _ _ _ _ Hpre He). }
  split; [intros current; now apply event_loop_first_final |].
  unfold call_agent_async. rewrite !Hresp. auto.
Qed.

End Dispatcher.

(** ** The model on concrete inputs *)

Example format_0f_int : PyNum.format_0f (PyNum.NInt 25) = "25".
Proof. vm_compute. reflexivity. Qed.

Example format_0f_tie_even :
  PyNum.format_0f (PyNum.truediv (PyNum.NInt 5) (PyNum.NInt 2)) = "2".
Proof. vm_compute. reflexivity. Qed.

Example format_0f_tie_odd :
  PyNum.format_0f (PyNum.truediv (PyNum.NInt 7) (PyNum.NInt 2)) = "4".
Proof. vm_compute. reflexivity. Qed.

Example capitalize_new_york : PyStr.capitalize "New York" = "New york".
Proof. reflexivity. Qed.

Example str_in_block : PyStr.str_in "BLOCK" (PyStr.upper "please Block this") = true.
Proof. reflexivity. Qed.

Example get_weather_missing_preference :
  (agentteam_statefulsession.get_weather "Tokyo" ∅).1 =
    success_dict "The weather in Tokyo is light rain with a temperature of 18°C.".
Proof. vm_compute. reflexivity. Qed.

Example get_weather_upper_case_preference :
  (agentteam_statefulsession.get_weather "Tokyo"
     (<["user_preference_temperature_unit" := PStr "FAHRENHEIT"]> ∅)).1 =
    success_dict "The weather in Tokyo is light rain with a temperature of 18°C.".
Proof. vm_compute. reflexivity. Qed.

Example get_weather_tokyo_fahrenheit :
  (agentteam_statefulsession.get_weather "Tokyo"
     (<["user_preference_temperature_unit" := PStr "Fahrenheit"]> ∅)).1 =
    success_dict "The weather in Tokyo is light rain with a temperature of 64°F.".
Proof. vm_compute. reflexivity. Qed.

Example stateless_get_weather_london :
  agent_session.get_weather "LONDON" =
    success_dict "It's cloudy in London with a temperature of 15°C.".
Proof. vm_compute. reflexivity. Qed.

(** The text of the most recent user message sits in its second part: the
    hook reads the older message. *)
Example last_user_message_text_second_part :
  let history :=
    [ {| role := Some "user"; parts := Some [ {| text := Some "hello" |} ] |};
      {| role := Some "user";
         parts := Some [ {| text := None |}; {| text := Some "BLOCK" |} ] |} ] in
  Spec.most_recent_user_text history = "BLOCK" ∧
  agentteam_statefulsession.last_user_message_text {| contents := history |}
    = "hello".
Proof. cbn. split; reflexivity. Qed.

(** A final event whose first part has no text: the response is None. *)
Example final_event_without_text :
  agentteam_statefulsession.final_response_text
    [ {| is_final_response := true;
         content := Some {| role := Some "model";
                            parts := Some [ {| text := None |} ] |};
         actions := Some {| escalate := Some true |};
         error_message := Some "boom" |} ] = None.
Proof. reflexivity. Qed.

(** A final event with neither content nor escalation keeps the default. *)
Example final_event_empty :
  agentteam_statefulsession.final_response_text
    [ {| is_final_response := true; content := None;
         actions := None; error_message := None |} ]
  = Some "Agent did not produce a final response.".
Proof. reflexivity. Qed.

Example block_city_number :
  agentteam_statefulsession.block_city_tool_guardrail
    "get_weather" (<["city" := PInt 5]> ∅) ∅ = (Raises AttributeError, ∅).
Proof. vm_compute. reflexivity. Qed.

(** A city written with the Kelvin sign: under a case mapping that
    lower-cases it to k, as the interpreter's does, the city normalizes to
    "tokyo", the tool succeeds and writes the city to the state. *)
Example get_weather_with_kelvin_sign :
  let city := "To" +:+ kelvin_sign +:+ "yo" in
  Spec.known_city (PyStr.remove_spaces (lower_with_kelvin city)) ∧
  agentteam_statefulsession.get_weather_with
    lower_with_kelvin capitalize_with_kelvin city ∅ =
    (success_dict
       "The weather in Tokyo is light rain with a temperature of 18°C.",
     <["last_city_checked_stateful" := PStr city]> ∅).
Proof.
  split; [right; right; reflexivity |]. vm_compute. reflexivity.
Qed.

(** ** Instances of the theorems *)

Import agentteam_statefulsession.

(** The decision on two one-message requests. *)
Lemma block_keyword_guardrail_decision_witness :
  let blocked :=
    {| contents := [ {| role := Some "user"; parts := Some
         [ {| text := Some "Block the request for weather in Tokyo" |} ] |} ] |} in
  let allowed :=
    {| contents := [ {| role := Some "user"; parts := Some
         [ {| text := Some "What's the weather in London?" |} ] |} ] |} in
  (Spec.contains_nocase "BLOCK" (last_user_message_text blocked) ∧
   block_keyword_guardrail ∅ blocked =
     (Some blocked_response,
      <["guardrail_block_keyword_triggered" := PBool true]> ∅))
  ∧
  (¬ Spec.contains_nocase "BLOCK" (last_user_message_text allowed) ∧
   block_keyword_guardrail ∅ allowed = (None, ∅)).
Proof.
  intros blocked allowed.
  assert (Hb : Spec.contains_nocase "BLOCK" (last_user_message_text blocked)).
  { apply str_in_upper_spec; reflexivity. }
  assert (Ha : ¬ Spec.contains_nocase "BLOCK" (last_user_message_text allowed)).
  { intros Hc. apply str_in_upper_spec in Hc; [|reflexivity].
    vm_compute in Hc. discriminate. }
  split; split; try assumption.
  - exact (proj1 (block_keyword_guardrail_decision ∅ blocked) Hb).
  - exact (proj2 (block_keyword_guardrail_decision ∅ allowed) Ha).
Defined.




Lemma get_weather_fahrenheit_report_witness :
  let state : gmap string pyval :=
    <["user_preference_temperature_unit" := PStr "Fahrenheit"]> ∅ in
  mock_weather_db !! PyStr.remove_spaces (PyStr.lower "New York")
    = Some {| temp_c := 25; condition := "sunny" |} ∧
  state !! "user_preference_temperature_unit" = Some (PStr "Fahrenheit") ∧
  (get_weather "New York" state).1 =
    success_dict
      ("The weather in " +:+ PyStr.capitalize "New York" +:+ " is " +:+
       "sunny" +:+ " with a temperature of " +:+
       PyStr.of_Z (Spec.fahrenheit_rounded 25) +:+ "°F" +:+ ".") ∧
  (∃ report,
      (get_weather "New York" state).1 = success_dict report ∧
      PyStr.str_in "77°F" report = true) ∧
  (∃ report,
      (get_weather "London"
         (<["user_preference_temperature_unit" := PStr "Celsius"]> ∅)).1
        = success_dict report ∧
      PyStr.str_in "15°C" report = true ∧
      PyStr.str_in "cloudy" report = true).
Proof.
  intros state. split; [reflexivity |]. split; [reflexivity |].
  split; [| split].
  - exact (proj1 get_weather_fahrenheit_report "New York" state
             {| temp_c := 25; condition := "sunny" |} eq_refl eq_refl).
  - exact (proj1 (proj2 get_weather_fahrenheit_report) state eq_refl).
  - exact (proj2 (proj2 get_weather_fahrenheit_report)
             (<["user_preference_temperature_unit" := PStr "Celsius"]> ∅)
             eq_refl).
Defined.

Lemma no_final_fallback_witness :
  let events :=
    [ {| is_final_response := false;
         content := Some {| role := Some "model"; parts := Some
           [ {| text := Some "thinking" |} ] |};
         actions := None; error_message := None |} ] in
  Spec.no_final events ∧
  final_response_text events = Some "Agent did not produce a final response.".
Proof.
  intros events.
  assert (Hn : Spec.no_final events) by (repeat constructor).
  split; [exact Hn |]. exact (proj1 (no_final_fallback events Hn)).
Defined.

Lemma escalation_response_witness :
  let e := {| is_final_response := true; content := None;
              actions := Some {| escalate := Some true |};
              error_message := Some "quota exceeded" |} in
  Spec.no_final [] ∧ is_final_response e = true ∧
  Spec.no_content e ∧ Spec.escalates e ∧
  final_response_text ([] ++ e :: []) = Some "Agent escalated: quota exceeded".
Proof.
  intros e.
  assert (Hn : Spec.no_final []) by constructor.
  assert (Hc : Spec.no_content e) by (left; reflexivity).
  assert (He : Spec.escalates e) by (eexists; split; reflexivity).
  split; [exact Hn |]. split; [reflexivity |].
  split; [exact Hc |]. split; [exact He |].
  refine (proj1 (escalation_response [] e [] Hn eq_refl Hc He)
            "quota exceeded" eq_refl _).
  discriminate.
Defined.

Lemma response_determined_by_first_final_witness :
  let thinking := {| is_final_response := false; content := None;
                     actions := None; error_message := None |} in
  let answer := {| is_final_response := true;
                   content := Some {| role := Some "model"; parts := Some
                     [ {| text := Some "It is cloudy in London." |} ] |};
                   actions := None; error_message := None |} in
  Spec.no_final [thinking] ∧ is_final_response answer = true ∧
  final_response_text ([thinking] ++ answer :: [thinking; answer]) =
    final_response_text ([thinking] ++ answer :: []).
Proof.
  intros thinking answer.
  assert (Hn : Spec.no_final [thinking]) by (repeat constructor).
  split; [exact Hn |]. split; [reflexivity |].
  exact (proj1 (proj2 (proj2
           (response_determined_by_first_final
              [thinking] answer [thinking; answer] [] Hn eq_refl)))).
Defined.

Lemma paris_is_unknown :
  ¬ Spec.known_city (PyStr.remove_spaces (PyStr.lower "Paris")).
Proof. intros [H | [H | H]]; discriminate. Qed.

Lemma get_weather_error_keeps_state_witness :
  let state : gmap string pyval :=
    <["user_preference_temperature_unit" := PStr "Celsius"]> ∅ in
  (¬ Spec.known_city (PyStr.remove_spaces (PyStr.lower "Paris")) ∧
   get_weather_with PyStr.lower PyStr.capitalize "Paris" state =
     (error_dict "Sorry, I don't have weather information for 'Paris'.", state))
  ∧
  (Spec.known_city (PyStr.remove_spaces (PyStr.lower "London")) ∧
   (get_weather_with PyStr.lower PyStr.capitalize "London" state).2 =
     <["last_city_checked_stateful" := PStr "London"]> state).
Proof.
  intros state.
  assert (Hl : Spec.known_city (PyStr.remove_spaces (PyStr.lower "London")))
    by (right; left; reflexivity).
  split; split.
  - exact paris_is_unknown.
  - exact (proj1 (get_weather_error_keeps_state
                    PyStr.lower PyStr.capitalize "Paris" state)
             paris_is_unknown).
  - exact Hl.
  - exact (proj2 (get_weather_error_keeps_state
                    PyStr.lower PyStr.capitalize "London" state) Hl).
Defined.

Lemma get_weather_celsius_unless_exact_fahrenheit_witness :
  let state : gmap string pyval :=
    <["user_preference_temperature_unit" := PStr "fahrenheit"]> ∅ in
  mock_weather_db !! PyStr.remove_spaces (PyStr.lower "New York")
    = Some {| temp_c := 25; condition := "sunny" |} ∧
  state !! "user_preference_temperature_unit" ≠ Some (PStr "Fahrenheit") ∧
  (get_weather "New York" state).1 =
    success_dict "The weather in New york is sunny with a temperature of 25°C.".
Proof.
  intros state.
  assert (Hs : state !! "user_preference_temperature_unit"
               ≠ Some (PStr "Fahrenheit")).
  { unfold state. rewrite lookup_insert_eq. discriminate. }
  split; [reflexivity |]. split; [exact Hs |].
  exact (get_weather_celsius_unless_exact_fahrenheit "New York" state
           {| temp_c := 25; condition := "sunny" |} eq_refl Hs).
Defined.

(** * Further properties of the code *)

(** ** The turn dispatcher: the other branches of the final event *)

Section DispatcherBranches.

(** X1: a final event that has content gives the text of its first part as
    the response, whatever its escalation flag and error text say; a first
    part without text gives None, printed as the word. *)
Theorem final_content_text_wins
    (pre : list Event) (e : Event) (post : list Event)
    (c : Content) (p : Part) (ps : list Part) :
  Spec.no_final pre → is_final_response e = true →
  content e = Some c → parts c = Some (p :: ps) →
  final_response_text (pre ++ e :: post) = text p ∧
  call_agent_async (pre ++ e :: post) =
    "<<< Agent Response: " +:+ str_of_opt (text p).
Proof.
  intros Hpre He Hc Hp.
  assert (Hr : final_response_text (pre ++ e :: post) = text p).
  { unfold final_response_text.
    rewrite (event_loop_first_final _ _ _ _ Hpre He). cbn [fst].
    unfold final_event_text. rewrite Hc. cbn. now rewrite Hp. }
  split; [exact Hr |]. unfold call_agent_async. now rewrite Hr.
Qed.

(** X2: a final event with neither content nor escalation ends the loop and
    leaves the default sentence: the turn reads as if no final event had
    come. *)
Theorem final_without_content_or_escalation
    (pre : list Event) (e : Event) (post : list Event) :
  Spec.no_final pre → is_final_response e = true →
  Spec.no_content e → ¬ Spec.escalates e →
  final_response_text (pre ++ e :: post) =
    Some "Agent did not produce a final response." ∧
  (event_loop (pre ++ e :: post) (Some default_response)).2 = post.
Proof.
  intros Hpre He Hc Hesc. unfold final_response_text.
  rewrite (event_loop_first_final _ _ _ _ Hpre He). cbn [fst snd].
  split; [|reflexivity].
  unfold final_event_text.
  assert (Hcont : match content e with
                  | Some c => parts_truthy (parts c)
                  | None => false
                  end = false).
  { destruct Hc as [-> | (c & -> & [-> | ->])]; reflexivity. }
  rewrite Hcont.
  destruct (actions e) as [a|] eqn:Ha; [|reflexivity].
  case_bool_decide as Hb; [|reflexivity].
  exfalso. apply Hesc. now exists a.
Qed.

End DispatcherBranches.

Lemma final_content_text_wins_witness :
  let e := {| is_final_response := true;
              content := Some {| role := Some "model"; parts := Some
                [ {| text := Some "It is sunny." |} ] |};
              actions := Some {| escalate := Some true |};
              error_message := Some "ignored" |} in
  Spec.no_final [] ∧ is_final_response e = true ∧
  final_response_text ([] ++ e :: []) = Some "It is sunny.".
Proof.
  intros e.
  assert (Hn : Spec.no_final []) by constructor.
  split; [exact Hn |]. split; [reflexivity |].
  exact (proj1 (final_content_text_wins [] e [] _ _ _ Hn eq_refl eq_refl eq_refl)).
Defined.

Lemma final_without_content_or_escalation_witness :
  let e := {| is_final_response := true; content := None;
              actions := Some {| escalate := None |};
              error_message := Some "not shown" |} in
  Spec.no_final [] ∧ is_final_response e = true ∧
  Spec.no_content e ∧ ¬ Spec.escalates e ∧
  final_response_text ([] ++ e :: [e]) =
    Some "Agent did not produce a final response.".
Proof.
  intros e.
  assert (Hn : Spec.no_final []) by constructor.
  assert (Hc : Spec.no_content e) by (left; reflexivity).
  assert (He : ¬ Spec.escalates e).
  { intros (a & Ha & Hesc). injection Ha as <-. discriminate. }
  split; [exact Hn |]. split; [reflexivity |].
  split; [exact Hc |]. split; [exact He |].
  exact (proj1 (final_without_content_or_escalation [] e [e] Hn eq_refl Hc He)).
Defined.

(** ** The pre-model hook and the history *)

Section KeywordHookHistory.

(** The backward scan passes over messages that are not readable user
    messages. *)
Lemma scan_user_text_skip (skipped rest : list Content) :
  Forall (λ m, ¬ Spec.readable_user_message m) skipped →
  scan_user_text (skipped ++ rest) = scan_user_text rest.
Proof.
  induction 1 as [|m l Hm _ IH]; [reflexivity |].
  cbn [app]. destruct (scan_user_text_step m (l ++ rest)) as [[Hr _] | [_ Hs]].
  - contradiction.
  - now rewrite Hs.
Qed.

Lemma Forall_rev_unreadable (l : list Content) :
  Forall (λ m, ¬ Spec.readable_user_message m) l →
  Forall (λ m, ¬ Spec.readable_user_message m) (rev l).
Proof.
  intros Hl. apply Forall_forall.
  intros x Hx%list_elem_of_In%in_rev%list_elem_of_In.
  revert x Hx. now apply Forall_forall.
Qed.

(** X3: messages added to the history that are not readable user messages
    (model messages, tool results sent back with role "user" and no text)
    change neither the text the hook inspects nor what the hook does: a
    keyword in the last user text keeps blocking every model call of the
    turn. *)
Theorem block_keyword_guardrail_ignores_unreadable
    (state : gmap string pyval) (history added : list Content) :
  Forall (λ m, ¬ Spec.readable_user_message m) added →
  last_user_message_text {| contents := history ++ added |} =
    last_user_message_text {| contents := history |} ∧
  block_keyword_guardrail state {| contents := history ++ added |} =
    block_keyword_guardrail state {| contents := history |}.
Proof.
  intros Ha.
  assert (Ht : last_user_message_text {| contents := history ++ added |} =
               last_user_message_text {| contents := history |}).
  { rewrite !last_user_message_text_rev. cbn [contents].
    rewrite rev_app_distr. apply scan_user_text_skip.
    now apply Forall_rev_unreadable. }
  split; [exact Ht |]. unfold block_keyword_guardrail. now rewrite Ht.
Qed.

Lemma new_message_readable (query : string) :
  query ≠ "" → Spec.readable_user_message (new_message query).
Proof.
  intros Hq. split; [reflexivity |]. eexists _, _, _. repeat split. exact Hq.
Qed.

(** X4: with the message call_agent_async builds for a non-empty query at the
    end of the history, the hook inspects the query and nothing older: its
    decision is the one it takes on the query alone. *)
Theorem block_keyword_guardrail_on_new_query
    (state : gmap string pyval) (history : list Content) (query : string) :
  query ≠ "" →
  last_user_message_text {| contents := history ++ [new_message query] |}
    = query ∧
  block_keyword_guardrail state {| contents := history ++ [new_message query] |} =
    block_keyword_guardrail state {| contents := [new_message query] |}.
Proof.
  intros Hq.
  assert (Ht : ∀ h, last_user_message_text
                      {| contents := h ++ [new_message query] |} = query).
  { intros h.
    pose proof (last_user_message_text_latest h _ (new_message_readable _ Hq)) as H1.
    cbn in H1. congruence. }
  split; [apply Ht |].
  pose proof (Ht []) as Hnil. cbn [app] in Hnil.
  unfold block_keyword_guardrail. now rewrite (Ht history), Hnil.
Qed.

(** X5: a history without a readable user message (the empty history, model
    messages only, user messages without text) is never blocked: the hook
    returns None and leaves the state alone. *)
Theorem block_keyword_guardrail_no_user_text
    (state : gmap string pyval) (llm_request : LlmRequest) :
  Forall (λ m, ¬ Spec.readable_user_message m) (contents llm_request) →
  block_keyword_guardrail state llm_request = (None, state).
Proof.
  intros Hall.
  assert (Ht : last_user_message_text llm_request = "").
  { rewrite last_user_message_text_rev.
    rewrite <- (app_nil_r (rev (contents llm_request))).
    rewrite scan_user_text_skip; [reflexivity |].
    now apply Forall_rev_unreadable. }
  unfold block_keyword_guardrail. now rewrite Ht.
Qed.

(** X6: both hooks are idempotent: called again on the state they left, with
    the same request, they decide the same and leave that state as it is. *)
Theorem guardrails_idempotent
    (state : gmap string pyval) (llm_request : LlmRequest)
    (tool_name : string) (args : gmap string pyval) :
  block_keyword_guardrail
    (block_keyword_guardrail state llm_request).2 llm_request
    = block_keyword_guardrail state llm_request
  ∧
  block_city_tool_guardrail tool_name args
    (block_city_tool_guardrail tool_name args state).2
    = block_city_tool_guardrail tool_name args state.
Proof.
  split.
  - unfold block_keyword_guardrail.
    destruct (PyStr.str_in _ _); cbn [snd]; [|reflexivity].
    now rewrite insert_insert_eq.
  - unfold block_city_tool_guardrail.
    destruct (String.eqb _ _); [|reflexivity].
    destruct (pyval_truthy _); [|reflexivity].
    destruct (default _ _); try reflexivity.
    case_bool_decide; cbn [snd]; [|reflexivity].
    now rewrite insert_insert_eq.
Qed.

End KeywordHookHistory.

Lemma block_keyword_guardrail_ignores_unreadable_witness :
  let history := [ new_message "BLOCK the weather" ] in
  let added :=
    [ {| role := Some "model"; parts := Some [ {| text := Some "calling" |} ] |};
      {| role := Some "user"; parts := Some [ {| text := None |} ] |} ] in
  Forall (λ m, ¬ Spec.readable_user_message m) added ∧
  last_user_message_text {| contents := history ++ added |} =
    last_user_message_text {| contents := history |}.
Proof.
  intros history added.
  assert (Ha : Forall (λ m, ¬ Spec.readable_user_message m) added).
  { repeat constructor.
    - intros [Hr _]. discriminate.
    - intros (_ & p & ps & t & [= <- <-] & Ht & _). discriminate. }
  split; [exact Ha |].
  exact (proj1 (block_keyword_guardrail_ignores_unreadable ∅ history added Ha)).
Defined.

Lemma block_keyword_guardrail_on_new_query_witness :
  "How about Paris?" ≠ "" ∧
  last_user_message_text
    {| contents := [ new_message "BLOCK it" ] ++ [ new_message "How about Paris?" ] |}
    = "How about Paris?".
Proof.
  assert (Hq : "How about Paris?" ≠ "") by discriminate.
  split; [exact Hq |].
  exact (proj1 (block_keyword_guardrail_on_new_query
                  ∅ [ new_message "BLOCK it" ] "How about Paris?" Hq)).
Defined.

Lemma block_keyword_guardrail_no_user_text_witness :
  Forall (λ m, ¬ Spec.readable_user_message m) (contents {| contents := [] |}) ∧
  block_keyword_guardrail ∅ {| contents := [] |} = (None, ∅).
Proof.
  assert (Hn : Forall (λ m, ¬ Spec.readable_user_message m)
                 (contents {| contents := [] |})) by constructor.
  split; [exact Hn |].
  exact (block_keyword_guardrail_no_user_text ∅ {| contents := [] |} Hn).
Defined.

(** ** The pre-model hook: which text decides *)

Section KeywordHookDecision.

(** The text the hook inspects, read off the history: the first-part text
    of the readable user message that no readable user message follows. *)
Lemma last_user_message_text_of_latest_readable
    (llm_request : LlmRequest)
    (older : list Content) (m : Content) (newer : list Content) (t : string) :
  contents llm_request = older ++ m :: newer →
  Spec.readable_user_message m →
  Forall (λ m', ¬ Spec.readable_user_message m') newer →
  first_part_text (parts m) = Some t →
  last_user_message_text llm_request = t.
Proof.
  intros Hc Hm Hnewer Ht.
  rewrite last_user_message_text_rev, Hc, rev_app_distr. cbn [rev].
  rewrite <- app_assoc. cbn [app].
  rewrite scan_user_text_skip by now apply Forall_rev_unreadable.
  destruct (scan_user_text_step m (rev older)) as [[_ Hs] | [Hn _]];
    [congruence | contradiction].
Qed.

Lemma last_user_message_text_without_readable (llm_request : LlmRequest) :
  Forall (λ m, ¬ Spec.readable_user_message m) (contents llm_request) →
  last_user_message_text llm_request = "".
Proof.
  intros Hall. rewrite last_user_message_text_rev.
  rewrite <- (app_nil_r (rev (contents llm_request))).
  rewrite scan_user_text_skip; [reflexivity |].
  now apply Forall_rev_unreadable.
Qed.

Lemma empty_text_has_no_keyword : ¬ Spec.contains_nocase "BLOCK" "".
Proof.
  intros H. apply str_in_upper_spec in H; [discriminate | reflexivity].
Qed.

(** C1, as stated, fails: the most recent user message of the history has
    the empty text, which does not contain "BLOCK", and the hook does not
    return None: it overrides, on the text of the older user message. *)
Lemma block_keyword_guardrail_blocks_on_older_text :
  let history :=
    [ {| role := Some "user";
         parts := Some [ {| text := Some "BLOCK it" |} ] |};
      {| role := Some "user";
         parts := Some [ {| text := Some "" |} ] |} ] in
  Spec.most_recent_user_text history = "" ∧
  ¬ Spec.contains_nocase "BLOCK" (Spec.most_recent_user_text history) ∧
  block_keyword_guardrail ∅ {| contents := history |} =
    (Some blocked_response,
     <["guardrail_block_keyword_triggered" := PBool true]> ∅) ∧
  block_keyword_guardrail ∅ {| contents := history |} ≠ (None, ∅).
Proof.
  intros history. split; [reflexivity |]. split; [| split].
  - exact empty_text_has_no_keyword.
  - reflexivity.
  - discriminate.
Qed.

(** C1, as amended: the hook decides on the text of the first part of the
    most recent message of the request that has role "user", at least one
    part and a non-empty text in its first part (messages after it that
    are not such are passed over).  When that text contains "BLOCK" in any
    letter case and at any position, the hook returns a response with
    role "model" that announces the block and sets
    "guardrail_block_keyword_triggered" to true; when that text does not
    contain it, and when the request has no such message, the hook returns
    None and writes nothing to the state. *)
Theorem block_keyword_guardrail_on_latest_readable
    (state : gmap string pyval) (llm_request : LlmRequest) :
  (∀ older m newer t,
     contents llm_request = older ++ m :: newer →
     Spec.readable_user_message m →
     Forall (λ m', ¬ Spec.readable_user_message m') newer →
     first_part_text (parts m) = Some t →
     (Spec.contains_nocase "BLOCK" t →
      block_keyword_guardrail state llm_request =
        (Some {| response_content := Some
                   {| role := Some "model";
                      parts := Some [ {| text := Some
"I cannot process this request because it contains the blocked keyword 'BLOCK'."
                                       |} ] |} |},
         <["guardrail_block_keyword_triggered" := PBool true]> state))
     ∧
     (¬ Spec.contains_nocase "BLOCK" t →
      block_keyword_guardrail state llm_request = (None, state)))
  ∧
  (Forall (λ m, ¬ Spec.readable_user_message m) (contents llm_request) →
   block_keyword_guardrail state llm_request = (None, state)).
Proof.
  split.
  - intros older m newer t Hc Hm Hnewer Ht.
    pose proof (last_user_message_text_of_latest_readable
                  llm_request older m newer t Hc Hm Hnewer Ht) as Htext.
    destruct (block_keyword_guardrail_decision state llm_request) as [Hb Hp].
    rewrite Htext in Hb, Hp. split; assumption.
  - intros Hall.
    apply (proj2 (block_keyword_guardrail_decision state llm_request)).
    rewrite (last_user_message_text_without_readable _ Hall).
    exact empty_text_has_no_keyword.
Qed.

End KeywordHookDecision.

Lemma block_keyword_guardrail_on_latest_readable_witness :
  let m := {| role := Some "user";
              parts := Some [ {| text := Some "Block the request" |} ] |} in
  let newer :=
    [ {| role := Some "model"; parts := Some [ {| text := Some "calling" |} ] |};
      {| role := Some "user"; parts := Some [ {| text := None |} ] |} ] in
  let llm_request := {| contents := [] ++ m :: newer |} in
  Spec.readable_user_message m ∧
  Forall (λ m', ¬ Spec.readable_user_message m') newer ∧
  Spec.contains_nocase "BLOCK" "Block the request" ∧
  block_keyword_guardrail ∅ llm_request =
    (Some blocked_response,
     <["guardrail_block_keyword_triggered" := PBool true]> ∅).
Proof.
  intros m newer llm_request.
  assert (Hm : Spec.readable_user_message m).
  { split; [reflexivity |]. eexists _, _, _. repeat split. discriminate. }
  assert (Hn : Forall (λ m', ¬ Spec.readable_user_message m') newer).
  { repeat constructor.
    - intros [Hr _]. discriminate.
    - intros (_ & p & ps & t & [= <- <-] & Ht & _). discriminate. }
  assert (Hk : Spec.contains_nocase "BLOCK" "Block the request").
  { apply str_in_upper_spec; reflexivity. }
  split; [exact Hm |]. split; [exact Hn |]. split; [exact Hk |].
  exact (proj1 (proj1 (block_keyword_guardrail_on_latest_readable ∅ llm_request)
                  [] m newer "Block the request" eq_refl Hm Hn eq_refl) Hk).
Defined.

(** ** The pre-tool hook: errors and spellings *)

Section ToolHookEdges.

Lemma classic_text (v : pyval) : (∃ city, v = PStr city) ∨ (∀ city, v ≠ PStr city).
Proof. destruct v; try (right; discriminate). left. now eexists. Qed.

(** X7: the hook raises exactly when the tool is "get_weather" and the "city"
    argument is a true value that is not a string (it has no lower method);
    it has written nothing to the state by then. *)
Theorem block_city_tool_guardrail_raises_iff
    (tool_name : string) (args state : gmap string pyval) :
  ((block_city_tool_guardrail tool_name args state).1 = Raises AttributeError
   ↔ tool_name = "get_weather" ∧
     ∃ v, args !! "city" = Some v ∧ pyval_truthy v = true ∧
          ∀ city, v ≠ PStr city)
  ∧
  ((block_city_tool_guardrail tool_name args state).1 = Raises AttributeError →
   (block_city_tool_guardrail tool_name args state).2 = state).
Proof.
  destruct (String.eqb_spec tool_name "get_weather") as [-> | Hne].
  - destruct (args !! "city") as [v|] eqn:Hc.
    + destruct (classic_text v) as [[city ->] | Hv].
      * rewrite (block_city_tool_guardrail_text _ _ _ Hc).
        split.
        -- split.
           ++ case_bool_decide; discriminate.
           ++ intros (_ & v & [= <-] & _ & Hv). now destruct (Hv city).
        -- case_bool_decide; discriminate.
      * destruct (pyval_truthy v) eqn:Ht.
        -- rewrite (block_city_tool_guardrail_not_text _ _ _ Hc Ht Hv).
           split; [|reflexivity]. split; [|reflexivity].
           intros _. split; [reflexivity |]. now exists v.
        -- assert (Hr : block_city_tool_guardrail "get_weather" args state
                        = (Returns None, state)).
           { unfold block_city_tool_guardrail. rewrite Hc.
             cbn [default id]. replace (_ =? _)%string with true by reflexivity.
             now rewrite Ht. }
           rewrite Hr. split; [|discriminate]. split; [discriminate |].
           intros (_ & v' & [= <-] & Ht' & _). congruence.
    + rewrite (block_city_tool_guardrail_no_city _ _ Hc).
      split; [|discriminate]. split; [discriminate |].
      intros (_ & v & [=] & _).
  - rewrite (block_city_tool_guardrail_other_tool _ _ _ Hne).
    split; [|discriminate]. split; [discriminate |].
    intros [Heq _]. contradiction.
Qed.

(** X8: every spelling that normalizes to "paris" ends in an error for the
    user: the weather tool does not know the city and leaves the state
    alone.  The hook compares the lower-cased argument without removing
    spaces, so it answers with the policy message only when the argument is
    "paris" up to letter case; a spelling with a space in it goes through
    to the tool. *)
Theorem paris_spellings
    (args state : gmap string pyval) (city : string) :
  args !! "city" = Some (PStr city) →
  PyStr.remove_spaces (PyStr.lower city) = "paris" →
  get_weather city state =
    (error_dict
       ("Sorry, I don't have weather information for '" +:+ city +:+ "'."),
     state)
  ∧ agent_session.get_weather city =
      error_dict
        ("Sorry, I don't have weather information for '" +:+ city +:+ "'.")
  ∧ (PyStr.lower city = "paris" →
     block_city_tool_guardrail "get_weather" args state =
       (Returns (Some (error_dict
"Policy restriction: Weather checks for 'Paris' are currently disabled by a tool guardrail.")),
        <["guardrail_tool_block_triggered" := PBool true]> state))
  ∧ (PyStr.lower city ≠ "paris" →
     block_city_tool_guardrail "get_weather" args state = (Returns None, state)).
Proof.
  intros Hc Hn. split; [| split; [| split]].
  - apply get_weather_unknown. now rewrite Hn.
  - unfold agent_session.get_weather. now rewrite Hn.
  - intros Hl. rewrite (block_city_tool_guardrail_text _ _ _ Hc).
    now rewrite bool_decide_eq_true_2.
  - intros Hl. rewrite (block_city_tool_guardrail_text _ _ _ Hc).
    now rewrite bool_decide_eq_false_2.
Qed.

End ToolHookEdges.

Lemma block_city_tool_guardrail_raises_iff_witness :
  let args : gmap string pyval := <["city" := PInt 5]> ∅ in
  (block_city_tool_guardrail "get_weather" args ∅).1 = Raises AttributeError ∧
  (block_city_tool_guardrail "get_weather" args ∅).2 = ∅.
Proof.
  intros args.
  assert (Hr : (block_city_tool_guardrail "get_weather" args ∅).1
               = Raises AttributeError).
  { apply (proj1 (block_city_tool_guardrail_raises_iff "get_weather" args ∅)).
    split; [reflexivity |]. exists (PInt 5).
    split; [reflexivity |]. split; [reflexivity | discriminate]. }
  split; [exact Hr |].
  exact (proj2 (block_city_tool_guardrail_raises_iff "get_weather" args ∅) Hr).
Defined.

Lemma paris_spellings_witness :
  let args : gmap string pyval := <["city" := PStr "Pa ris"]> ∅ in
  args !! "city" = Some (PStr "Pa ris") ∧
  PyStr.remove_spaces (PyStr.lower "Pa ris") = "paris" ∧
  PyStr.lower "Pa ris" ≠ "paris" ∧
  block_city_tool_guardrail "get_weather" args ∅ = (Returns None, ∅) ∧
  get_weather "Pa ris" ∅ =
    (error_dict "Sorry, I don't have weather information for 'Pa ris'.", ∅).
Proof.
  intros args.
  assert (Hl : PyStr.lower "Pa ris" ≠ "paris") by discriminate.
  split; [reflexivity |]. split; [reflexivity |]. split; [exact Hl |].
  split.
  - exact (proj2 (proj2 (proj2
             (paris_spellings args ∅ "Pa ris" eq_refl eq_refl))) Hl).
  - exact (proj1 (paris_spellings args ∅ "Pa ris" eq_refl eq_refl)).
Defined.

(** ** The weather tool: spellings and arithmetic *)

Section WeatherToolMore.

Lemma lower_upper_char (c : ascii) :
  PyStr.lower_char (PyStr.upper_char c) = PyStr.lower_char c.
Proof.
  apply code_inj. rewrite !code_lower_char, code_upper_char.
  unfold PyStr.is_ascii_upper, PyStr.is_ascii_lower.
  rewrite code_upper_char. unfold PyStr.is_ascii_lower.
  destruct ((97 <=? PyStr.code c) && (PyStr.code c <=? 122))%N eqn:El.
  - apply andb_true_iff in El as [E1%N.leb_le E2%N.leb_le].
    replace ((65 <=? PyStr.code c - 32) && (PyStr.code c - 32 <=? 90))%N
      with true
      by (symmetry; apply andb_true_iff; split; apply N.leb_le; lia).
    replace ((65 <=? PyStr.code c) && (PyStr.code c <=? 90))%N with false
      by (symmetry; apply andb_false_iff; right; apply N.leb_gt; lia).
    lia.
  - reflexivity.
Qed.

(** Upper-casing a city does not change what it normalizes to. *)
Lemma normalized_upper (city : string) :
  PyStr.remove_spaces (PyStr.lower (PyStr.upper city)) =
  PyStr.remove_spaces (PyStr.lower city).
Proof.
  f_equal. induction city as [|c s IH]; [reflexivity |].
  cbn. now rewrite lower_upper_char, IH.
Qed.

Lemma lower_remove_spaces (s : string) :
  PyStr.lower (PyStr.remove_spaces s) = PyStr.remove_spaces (PyStr.lower s).
Proof.
  induction s as [|c s IH]; [reflexivity |]. cbn.
  destruct (Ascii.eqb_spec c " "%char) as [-> | Hc].
  - exact IH.
  - assert (Hl : Ascii.eqb (PyStr.lower_char c) " "%char = false).
    { apply Ascii.eqb_neq. intros Heq. apply Hc.
      apply (f_equal PyStr.code) in Heq. rewrite code_lower_char in Heq.
      apply code_inj. change (PyStr.code " "%char) with 32%N in *.
      unfold PyStr.is_ascii_upper in Heq.
      destruct ((65 <=? PyStr.code c) && (PyStr.code c <=? 90))%N eqn:E;
        [|exact Heq].
      apply andb_true_iff in E as [E1%N.leb_le _]. lia. }
    rewrite Hl. cbn. now rewrite IH.
Qed.

Lemma remove_spaces_idem (s : string) :
  PyStr.remove_spaces (PyStr.remove_spaces s) = PyStr.remove_spaces s.
Proof.
  induction s as [|c s IH]; [reflexivity |]. cbn.
  destruct (Ascii.eqb c " "%char) eqn:E; [exact IH |].
  cbn. now rewrite E, IH.
Qed.

(** Removing the spaces of a city does not change what it normalizes to. *)
Lemma normalized_remove_spaces (city : string) :
  PyStr.remove_spaces (PyStr.lower (PyStr.remove_spaces city)) =
  PyStr.remove_spaces (PyStr.lower city).
Proof. now rewrite lower_remove_spaces, remove_spaces_idem. Qed.

Lemma status_success (report : string) :
  success_dict report !! "status" = Some "success".
Proof. apply lookup_insert_eq. Qed.

Lemma status_error (msg : string) :
  error_dict msg !! "status" = Some "error".
Proof. apply lookup_insert_eq. Qed.

(** X9: two spellings of a city that normalize alike (they differ in letter
    case and spaces only) get the same status from both tools, and for a
    known city the stateless tool returns the very same dictionary. *)
Theorem get_weather_spelling_insensitive
    (city1 city2 : string) (state : gmap string pyval) :
  PyStr.remove_spaces (PyStr.lower city1) =
  PyStr.remove_spaces (PyStr.lower city2) →
  agent_session.get_weather city1 !! "status" =
    agent_session.get_weather city2 !! "status"
  ∧ (Spec.known_city (PyStr.remove_spaces (PyStr.lower city1)) →
     agent_session.get_weather city1 = agent_session.get_weather city2)
  ∧ (get_weather city1 state).1 !! "status" =
    (get_weather city2 state).1 !! "status".
Proof.
  intros Hn. split; [| split].
  - unfold agent_session.get_weather. rewrite Hn.
    destruct (agent_session.mock_weather_db !! _); [reflexivity |].
    now rewrite !status_error.
  - intros [entry He]%stateless_db_known.
    unfold agent_session.get_weather. rewrite <- Hn. now rewrite He.
  - destruct (mock_weather_db !! PyStr.remove_spaces (PyStr.lower city1))
      as [data|] eqn:Hd.
    + rewrite (get_weather_known city1 state data Hd).
      rewrite Hn in Hd. rewrite (get_weather_known city2 state data Hd).
      cbn [fst]. now rewrite !status_success.
    + rewrite (get_weather_unknown city1 state Hd).
      rewrite Hn in Hd. rewrite (get_weather_unknown city2 state Hd).
      cbn [fst]. now rewrite !status_error.
Qed.

Lemma celsius_range_spec (t : Z) :
  (-273 ≤ t ≤ 1000)%Z → In t celsius_range.
Proof.
  intros Ht. unfold celsius_range. apply in_map_iff.
  exists (Z.to_nat (t + 273)). split; [lia |].
  apply in_seq. lia.
Qed.

(** X10: from absolute zero to 1000 degrees Celsius, the float computation
    (temp_c * 9/5) + 32 printed with the .0f format gives the exact value
    rounded to the nearest integer, with one exception: at -18 degrees the
    float is -0.4 and the format prints "-0". *)
Theorem fahrenheit_format_exact (temp_c : Z) :
  (-273 ≤ temp_c ≤ 1000)%Z →
  PyNum.format_0f (fahrenheit temp_c) =
    if (temp_c =? -18)%Z then "-0"
    else PyStr.of_Z (Spec.fahrenheit_rounded temp_c).
Proof.
  intros Ht. apply celsius_range_spec in Ht.
  assert (Hall : forallb
            (λ t, String.eqb (PyNum.format_0f (fahrenheit t))
                    (if (t =? -18)%Z then "-0"
                     else PyStr.of_Z (Spec.fahrenheit_rounded t)))
            celsius_range = true) by (vm_compute; reflexivity).
  rewrite forallb_forall in Hall. apply String.eqb_eq. now apply Hall.
Qed.

End WeatherToolMore.

Lemma get_weather_spelling_insensitive_witness :
  PyStr.remove_spaces (PyStr.lower "NEW YORK") =
  PyStr.remove_spaces (PyStr.lower "newyork") ∧
  Spec.known_city (PyStr.remove_spaces (PyStr.lower "NEW YORK")) ∧
  agent_session.get_weather "NEW YORK" = agent_session.get_weather "newyork".
Proof.
  assert (Hk : Spec.known_city (PyStr.remove_spaces (PyStr.lower "NEW YORK")))
    by (left; reflexivity).
  split; [reflexivity |]. split; [exact Hk |].
  exact (proj1 (proj2
           (get_weather_spelling_insensitive "NEW YORK" "newyork" ∅ eq_refl)) Hk).
Defined.

Lemma fahrenheit_format_exact_witness :
  (-273 ≤ 18 ≤ 1000)%Z ∧ PyNum.format_0f (fahrenheit 18) = "64".
Proof.
  assert (Hr : (-273 ≤ 18 ≤ 1000)%Z) by lia.
  split; [exact Hr |]. exact (fahrenheit_format_exact 18 Hr).
Defined.

(** ** Sequences of calls on one session state *)

Section CallSequences.

Import Trace.

Lemma not_written_key (k : string) :
  k ∉ written_keys →
  k ≠ "last_city_checked_stateful" ∧
  k ≠ "guardrail_block_keyword_triggered" ∧
  k ≠ "guardrail_tool_block_triggered".
Proof.
  unfold written_keys. rewrite !not_elem_of_cons. tauto.
Qed.

(** What each call does to the state: nothing, or one insertion. *)
Lemma state_after_cases (c : call) (state : gmap string pyval) :
  state_after c state = state ∨
  (∃ city, state_after c state =
             <["last_city_checked_stateful" := PStr city]> state) ∨
  state_after c state =
    <["guardrail_block_keyword_triggered" := PBool true]> state ∨
  state_after c state =
    <["guardrail_tool_block_triggered" := PBool true]> state.
Proof.
  destruct c as [city | llm_request | tool_name args]; cbn [state_after].
  - destruct (mock_weather_db !! PyStr.remove_spaces (PyStr.lower city))
      as [data|] eqn:Hd.
    + right; left. exists city. now rewrite (get_weather_known city state data Hd).
    + left. now rewrite (get_weather_unknown city state Hd).
  - unfold block_keyword_guardrail. destruct (PyStr.str_in _ _); cbn [snd]; auto.
  - unfold block_city_tool_guardrail.
    destruct (String.eqb _ _); [|auto].
    destruct (pyval_truthy _); [|auto].
    destruct (default _ _); auto.
    case_bool_decide; cbn [snd]; auto.
Qed.

Lemma state_after_other_keys (c : call) (state : gmap string pyval) (k : string) :
  k ∉ written_keys → state_after c state !! k = state !! k.
Proof.
  intros (H1 & H2 & H3)%not_written_key.
  destruct (state_after_cases c state) as [-> | [[city ->] | [-> | ->]]];
    [reflexivity | ..]; now rewrite lookup_insert_ne.
Qed.

Lemma state_after_keeps_keys (c : call) (state : gmap string pyval) (k : string) :
  is_Some (state !! k) → is_Some (state_after c state !! k).
Proof.
  intros Hk.
  destruct (state_after_cases c state) as [-> | [[city ->] | [-> | ->]]];
    [assumption | ..]; rewrite lookup_insert; case_decide; eauto.
Qed.

Lemma state_after_keeps_flags (c : call) (state : gmap string pyval) (k : string) :
  k = "guardrail_block_keyword_triggered" ∨
  k = "guardrail_tool_block_triggered" →
  state !! k = Some (PBool true) →
  state_after c state !! k = Some (PBool true).
Proof.
  intros Hk Hs.
  destruct (state_after_cases c state) as [-> | [[city ->] | [-> | ->]]];
    [assumption | ..]; rewrite lookup_insert; case_decide; try assumption;
    try reflexivity.
  destruct Hk; subst; discriminate.
Qed.

Lemma state_after_calls_snoc (calls : list call) (c : call)
    (state : gmap string pyval) :
  state_after_calls (calls ++ [c]) state =
    state_after c (state_after_calls calls state).
Proof. unfold state_after_calls. now rewrite foldl_snoc. Qed.

(** X11: whatever calls of the weather tool and of the two hooks are made on a
    session, in whatever order, every key other than the three they write
    keeps its value; the temperature-unit preference is one of them, so
    only a write from outside can change the unit. *)
Theorem calls_preserve_other_keys
    (calls : list call) (state : gmap string pyval) (k : string) :
  k ∉ written_keys →
  state_after_calls calls state !! k = state !! k.
Proof.
  intros Hk. induction calls as [|c calls IH] using rev_ind; [reflexivity |].
  rewrite state_after_calls_snoc, state_after_other_keys; assumption.
Qed.

(** X12: no sequence of calls removes a key from the session state, and a
    guardrail flag that is True stays True: the code never resets it. *)
Theorem calls_never_unset (calls : list call) (state : gmap string pyval) :
  (∀ k, is_Some (state !! k) →
        is_Some (state_after_calls calls state !! k))
  ∧
  (∀ k, k = "guardrail_block_keyword_triggered" ∨
        k = "guardrail_tool_block_triggered" →
        state !! k = Some (PBool true) →
        state_after_calls calls state !! k = Some (PBool true)).
Proof.
  induction calls as [|c calls [IH1 IH2]] using rev_ind; [split; auto |].
  rewrite state_after_calls_snoc. split.
  - intros k Hk. apply state_after_keeps_keys, IH1, Hk.
  - intros k Hk Hs. apply state_after_keeps_flags; [exact Hk |]. now apply IH2.
Qed.

(** The result of the weather tool reads the state through the unit
    preference only. *)
Lemma get_weather_result_unit_only (city : string) (s1 s2 : gmap string pyval) :
  s1 !! "user_preference_temperature_unit" =
  s2 !! "user_preference_temperature_unit" →
  (get_weather city s1).1 = (get_weather city s2).1.
Proof.
  intros H. unfold get_weather. rewrite H.
  destruct (mock_weather_db !! _); [|reflexivity].
  destruct (pyval_eq_str _ _); reflexivity.
Qed.

(** X13: the report the weather tool gives for a city is the same before and
    after any sequence of tool and hook calls: earlier calls, blocked or
    not, never change a later answer. *)
Theorem calls_do_not_change_reports
    (calls : list call) (state : gmap string pyval) (city : string) :
  (get_weather city (state_after_calls calls state)).1 =
  (get_weather city state).1.
Proof.
  apply get_weather_result_unit_only.
  assert (Hk : "user_preference_temperature_unit" ∉ written_keys).
  { unfold written_keys. rewrite !not_elem_of_cons.
    repeat split; try discriminate. apply not_elem_of_nil. }
  induction calls as [|c calls IH] using rev_ind; [reflexivity |].
  rewrite state_after_calls_snoc, state_after_other_keys; assumption.
Qed.

End CallSequences.

Lemma calls_preserve_other_keys_witness :
  let state : gmap string pyval :=
    <["user_preference_temperature_unit" := PStr "Fahrenheit"]> ∅ in
  let calls :=
    [ Trace.CallKeywordHook {| contents := [ new_message "BLOCK" ] |};
      Trace.CallToolHook "get_weather" (<["city" := PStr "Paris"]> ∅);
      Trace.CallGetWeather "London" ] in
  ("user_preference_temperature_unit" ∉ Trace.written_keys) ∧
  Trace.state_after_calls calls state !! "user_preference_temperature_unit"
    = Some (PStr "Fahrenheit").
Proof.
  intros state calls.
  assert (Hk : "user_preference_temperature_unit" ∉ Trace.written_keys).
  { unfold Trace.written_keys. rewrite !not_elem_of_cons.
    repeat split; try discriminate. apply not_elem_of_nil. }
  split; [exact Hk |].
  exact (calls_preserve_other_keys calls state _ Hk).
Defined.

Lemma calls_never_unset_witness :
  let state : gmap string pyval :=
    <["guardrail_tool_block_triggered" := PBool true]> ∅ in
  let calls :=
    [ Trace.CallToolHook "get_weather" (<["city" := PStr "London"]> ∅);
      Trace.CallGetWeather "London" ] in
  state !! "guardrail_tool_block_triggered" = Some (PBool true) ∧
  Trace.state_after_calls calls state !! "guardrail_tool_block_triggered"
    = Some (PBool true).
Proof.
  intros state calls. split; [reflexivity |].
  exact (proj2 (calls_never_unset calls state)
           "guardrail_tool_block_triggered" (or_intror eq_refl) eq_refl).
Defined.

(** ** Greetings and model selection *)

Section Setup.

Lemma str_length_append (a b : string) :
  String.length (a +:+ b) = String.length a + String.length b.
Proof. induction a as [|x a IH]; cbn; [reflexivity | now rewrite IH]. Qed.

Lemma append_inj_r (a b s : string) : a +:+ s = b +:+ s → a = b.
Proof.
  revert b. induction a as [|x a IH]; intros b H.
  - destruct b as [|y b]; [reflexivity |].
    apply (f_equal String.length) in H. cbn in H.
    rewrite str_length_append in H. lia.
  - destruct b as [|y b].
    + apply (f_equal String.length) in H. cbn in H.
      rewrite str_length_append in H. lia.
    + cbn in H. injection H as -> H. f_equal. now apply IH.
Qed.

Lemma append_inj_l (s a b : string) : s +:+ a = s +:+ b → a = b.
Proof.
  induction s as [|x s IH]; cbn; [trivial |]. intros [= H]. now apply IH.
Qed.

Lemma nonempty_str_Some (o : option string) (s : string) :
  nonempty_str o = Some s ↔ o = Some s ∧ s ≠ "".
Proof.
  destruct o as [t|]; cbn.
  - destruct t as [|c t]; cbn.
    + split; [discriminate | intros [[= <-] H]; contradiction].
    + split; [intros [= <-]; split; [reflexivity | discriminate]
             | intros [[= <-] _]; reflexivity].
  - split; [discriminate | intros [[=] _]].
Qed.

Lemma nonempty_str_None (o : option string) :
  nonempty_str o = None ↔ o = None ∨ o = Some "".
Proof.
  destruct o as [[|c t]|]; cbn; split; auto; try discriminate.
  intros [[=] | [=]].
Qed.

(** X14: say_hello gives the default greeting exactly when the name is missing
    or empty, and a named greeting tells the name: two calls return the
    same greeting only for the same name or for two absent names. *)
Theorem say_hello_tells_the_name (name1 name2 : option string) :
  (say_hello name1 = "Hello there!" ↔ name1 = None ∨ name1 = Some "")
  ∧
  (say_hello name1 = say_hello name2 ↔
   nonempty_str name1 = nonempty_str name2).
Proof.
  assert (Hdef : ∀ n, "Hello, " +:+ n +:+ "!" ≠ "Hello there!").
  { intros n. cbn. discriminate. }
  split.
  - rewrite <- nonempty_str_None. unfold say_hello.
    destruct (nonempty_str name1) as [n|]; split; intros H;
      [now destruct (Hdef n) | discriminate | reflexivity | reflexivity].
  - unfold say_hello.
    destruct (nonempty_str name1) as [n1|], (nonempty_str name2) as [n2|];
      split; intros H.
    + cbn in H. injection H as H. apply append_inj_r in H. now subst.
    + now injection H as ->.
    + now destruct (Hdef n1).
    + discriminate.
    + symmetry in H. now destruct (Hdef n2).
    + discriminate.
    + reflexivity.
    + reflexivity.
Qed.

(** What one branch of get_model_constants resolves to. *)
Lemma model_or_env_cases (env : gmap string string)
    (given : option string) (var msg : string) :
  model_or_env env given var msg =
    match nonempty_str given, nonempty_str (env !! var) with
    | Some m, _ => Ok m
    | None, Some m => Ok m
    | None, None => Fail (ValueError msg)
    end.
Proof.
  unfold model_or_env, getenv. destruct (nonempty_str given); reflexivity.
Qed.

(** X15: a model passed to get_model_constants for the selected short name
    wins over the environment, which is then not read at all: the result
    is the same in every environment.  The two other model arguments are
    not looked at. *)
Theorem get_model_constants_given_model_wins
    (env env' : gmap string string) (m : string)
    (other1 other2 other1' other2' : option string) :
  m ≠ "" →
  get_model_constants env "gpt" (Some m) other1 other2 = Ok (m, LiteLlm m) ∧
  get_model_constants env "claude" other1 (Some m) other2 = Ok (m, LiteLlm m) ∧
  get_model_constants env "gemini" other1 other2 (Some m) = Ok (m, ModelStr m) ∧
  get_model_constants env "gpt" (Some m) other1 other2 =
    get_model_constants env' "gpt" (Some m) other1' other2'.
Proof.
  intros Hm.
  assert (Hn : nonempty_str (Some m) = Some m)
    by (now apply nonempty_str_Some).
  unfold get_model_constants. cbn [String.eqb Ascii.eqb Bool.eqb].
  rewrite !model_or_env_cases, Hn. repeat split.
Qed.

(** X16: without a model argument get_model_constants reads the environment
    variable of the selected short name: a non-empty value is returned,
    wrapped in LiteLlm for "gpt" and "claude" and as it is for "gemini"; a
    missing or empty one raises the ValueError that names the variable. *)
Theorem get_model_constants_from_env
    (env : gmap string string) (other1 other2 : option string) :
  (∀ m, env !! "MODEL_GPT" = Some m → m ≠ "" →
        get_model_constants env "gpt" None other1 other2 = Ok (m, LiteLlm m))
  ∧ (∀ m, env !! "MODEL_CLAUDE" = Some m → m ≠ "" →
        get_model_constants env "claude" other1 None other2 = Ok (m, LiteLlm m))
  ∧ (∀ m, env !! "MODEL_GEMINI" = Some m → m ≠ "" →
        get_model_constants env "gemini" other1 other2 None = Ok (m, ModelStr m))
  ∧ (env !! "MODEL_GPT" = None ∨ env !! "MODEL_GPT" = Some "" →
        get_model_constants env "gpt" None other1 other2 =
          Fail (ValueError "MODEL_GPT is not defined in .env"))
  ∧ (env !! "MODEL_CLAUDE" = None ∨ env !! "MODEL_CLAUDE" = Some "" →
        get_model_constants env "claude" other1 None other2 =
          Fail (ValueError "MODEL_CLAUDE is not defined in .env"))
  ∧ (env !! "MODEL_GEMINI" = None ∨ env !! "MODEL_GEMINI" = Some "" →
        get_model_constants env "gemini" other1 other2 None =
          Fail (ValueError "MODEL_GEMINI is not defined in .env")).
Proof.
  unfold get_model_constants. cbn [String.eqb Ascii.eqb Bool.eqb].
  rewrite !model_or_env_cases. cbn [nonempty_str].
  repeat split.
  1-3: intros m Hm Hne;
       assert (Hn : nonempty_str (Some m) = Some m)
         by (now apply nonempty_str_Some);
       now rewrite Hm, Hn.
  all: intros [-> | ->]; reflexivity.
Qed.

(** X17: a short name other than "gpt", "claude" and "gemini" makes
    get_model_constants fail with an UnboundLocalError on agent_model,
    whatever models are passed and whatever the environment holds. *)
Theorem get_model_constants_unknown_name
    (env : gmap string string) (model_short_name : string)
    (model_gpt model_claude model_gemini : option string) :
  model_short_name ≠ "gpt" → model_short_name ≠ "claude" →
  model_short_name ≠ "gemini" →
  get_model_constants env model_short_name model_gpt model_claude model_gemini
    = Fail (UnboundLocalError "agent_model").
Proof.
  intros H1 H2 H3. unfold get_model_constants.
  destruct (String.eqb_spec model_short_name "gpt"); [contradiction |].
  destruct (String.eqb_spec model_short_name "claude"); [contradiction |].
  destruct (String.eqb_spec model_short_name "gemini"); [contradiction |].
  reflexivity.
Qed.

(** X18: when get_model_constants returns, the short name is one of the three,
    the model identifier is not empty, and the model is that identifier:
    as a plain string for "gemini", wrapped in LiteLlm otherwise. *)
Theorem get_model_constants_success
    (env : gmap string string) (model_short_name : string)
    (model_gpt model_claude model_gemini : option string)
    (agent_model : string) (model : llm_model) :
  get_model_constants env model_short_name model_gpt model_claude model_gemini
    = Ok (agent_model, model) →
  agent_model ≠ "" ∧
  ((model_short_name = "gemini" ∧ model = ModelStr agent_model) ∨
   ((model_short_name = "gpt" ∨ model_short_name = "claude") ∧
    model = LiteLlm agent_model)).
Proof.
  assert (Hne : ∀ given var msg m,
             model_or_env env given var msg = Ok m → m ≠ "").
  { intros given var msg m. rewrite model_or_env_cases.
    destruct (nonempty_str given) as [g|] eqn:Hg.
    - intros [= <-]. now apply nonempty_str_Some in Hg.
    - destruct (nonempty_str (env !! var)) as [v|] eqn:Hv; [|discriminate].
      intros [= <-]. now apply nonempty_str_Some in Hv. }
  unfold get_model_constants.
  destruct (String.eqb_spec model_short_name "gpt") as [-> | _].
  { destruct (model_or_env _ _ _ _) eqn:Hm; [|discriminate].
    intros [= <- <-]. split; [eapply Hne, Hm | right; auto]. }
  destruct (String.eqb_spec model_short_name "claude") as [-> | _].
  { destruct (model_or_env _ _ _ _) eqn:Hm; [|discriminate].
    intros [= <- <-]. split; [eapply Hne, Hm | right; auto]. }
  destruct (String.eqb_spec model_short_name "gemini") as [-> | _];
    [|discriminate].
  destruct (model_or_env _ _ _ _) eqn:Hm; [|discriminate].
  intros [= <- <-]. split; [eapply Hne, Hm | left; auto].
Qed.

(** X19: on the three supported short names, create_session of the single-agent
    script selects the model that get_model_constants of the team scripts
    selects when no model is passed: same identifier, same wrapping, same
    ValueError.  On any other name both fail with an UnboundLocalError,
    on the local variable each reads first. *)
Theorem select_model_agrees
    (env : gmap string string) (short : string) :
  (short = "gpt" ∨ short = "claude" ∨ short = "gemini" →
   agent_session.select_model env short =
     get_model_constants env short None None None)
  ∧
  (¬ (short = "gpt" ∨ short = "claude" ∨ short = "gemini") →
   agent_session.select_model env short = Fail (UnboundLocalError "model") ∧
   get_model_constants env short None None None =
     Fail (UnboundLocalError "agent_model")).
Proof.
  split.
  - intros [-> | [-> | ->]];
      unfold agent_session.select_model, get_model_constants;
      cbn [String.eqb Ascii.eqb Bool.eqb];
      rewrite model_or_env_cases; cbn [nonempty_str]; unfold getenv;
      destruct (nonempty_str (env !! _)); reflexivity.
  - intros Hn. unfold agent_session.select_model, get_model_constants.
    destruct (String.eqb_spec short "gpt"); [tauto |].
    destruct (String.eqb_spec short "claude"); [tauto |].
    destruct (String.eqb_spec short "gemini"); [tauto |].
    split; reflexivity.
Qed.

(** X20: sessions that create_session sets up for two different short names
    share none of their identifiers: application, user, session and agent
    name all differ, for the same roots. *)
Theorem create_session_ids_distinct
    (env env' : gmap string string)
    (short short' app_root user_root session_root : string)
    (s s' : agent_session.session_setup) :
  short ≠ short' →
  agent_session.create_session env short app_root user_root session_root
    = Ok s →
  agent_session.create_session env' short' app_root user_root session_root
    = Ok s' →
  agent_session.APP_NAME s ≠ agent_session.APP_NAME s' ∧
  agent_session.USER_ID s ≠ agent_session.USER_ID s' ∧
  agent_session.SESSION_ID s ≠ agent_session.SESSION_ID s' ∧
  agent_session.agent_name s ≠ agent_session.agent_name s'.
Proof.
  intros Hne. unfold agent_session.create_session.
  destruct (agent_session.select_model env short) as [[am m]|]; [|discriminate].
  destruct (agent_session.select_model env' short') as [[am' m']|];
    [|discriminate].
  intros [= <-] [= <-]. cbn.
  repeat split; intros H; apply Hne.
  - now apply append_inj_l in H as [= ->]%(append_inj_l "_").
  - now apply append_inj_l in H as [= ->]%(append_inj_l "_").
  - now apply append_inj_l in H as [= ->]%(append_inj_l "_").
  - now apply (append_inj_l "weather_agent_") in H.
Qed.

End Setup.

Lemma get_model_constants_given_model_wins_witness :
  "openai/gpt-4.1-mini" ≠ "" ∧
  get_model_constants ∅ "gpt" (Some "openai/gpt-4.1-mini") None None =
    Ok ("openai/gpt-4.1-mini", LiteLlm "openai/gpt-4.1-mini").
Proof.
  assert (Hm : "openai/gpt-4.1-mini" ≠ "") by discriminate.
  split; [exact Hm |].
  exact (proj1 (get_model_constants_given_model_wins
                  ∅ ∅ "openai/gpt-4.1-mini" None None None None Hm)).
Defined.

Lemma get_model_constants_from_env_witness :
  let env : gmap string string := <["MODEL_GEMINI" := "gemini-2.0-flash"]> ∅ in
  (env !! "MODEL_GEMINI" = Some "gemini-2.0-flash" ∧
   get_model_constants env "gemini" None None None =
     Ok ("gemini-2.0-flash", ModelStr "gemini-2.0-flash"))
  ∧
  (env !! "MODEL_GPT" = None ∧
   get_model_constants env "gpt" None None None =
     Fail (ValueError "MODEL_GPT is not defined in .env")).
Proof.
  intros env.
  assert (Hne : "gemini-2.0-flash" ≠ "") by discriminate.
  split; (split; [reflexivity |]).
  - exact (proj1 (proj2 (proj2 (get_model_constants_from_env env None None)))
             "gemini-2.0-flash" eq_refl Hne).
  - exact (proj1 (proj2 (proj2 (proj2
             (get_model_constants_from_env env None None))))
             (or_introl eq_refl)).
Defined.

Lemma get_model_constants_unknown_name_witness :
  "llama" ≠ "gpt" ∧ "llama" ≠ "claude" ∧ "llama" ≠ "gemini" ∧
  get_model_constants ∅ "llama" (Some "a") (Some "b") (Some "c") =
    Fail (UnboundLocalError "agent_model").
Proof.
  assert (H1 : "llama" ≠ "gpt") by discriminate.
  assert (H2 : "llama" ≠ "claude") by discriminate.
  assert (H3 : "llama" ≠ "gemini") by discriminate.
  split; [exact H1 |]. split; [exact H2 |]. split; [exact H3 |].
  exact (get_model_constants_unknown_name
           ∅ "llama" (Some "a") (Some "b") (Some "c") H1 H2 H3).
Defined.

Lemma get_model_constants_success_witness :
  let env : gmap string string := <["MODEL_CLAUDE" := "anthropic/claude"]> ∅ in
  get_model_constants env "claude" None (Some "") None =
    Ok ("anthropic/claude", LiteLlm "anthropic/claude") ∧
  "anthropic/claude" ≠ "".
Proof.
  intros env.
  assert (Hr : get_model_constants env "claude" None (Some "") None =
               Ok ("anthropic/claude", LiteLlm "anthropic/claude"))
    by reflexivity.
  split; [exact Hr |].
  exact (proj1 (get_model_constants_success
                  env "claude" None (Some "") None _ _ Hr)).
Defined.

Lemma select_model_agrees_witness :
  let env : gmap string string := <["MODEL_GPT" := "openai/gpt-4.1"]> ∅ in
  agent_session.select_model env "gpt" =
    get_model_constants env "gpt" None None None ∧
  agent_session.select_model env "llama" = Fail (UnboundLocalError "model").
Proof.
  intros env. split.
  - exact (proj1 (select_model_agrees env "gpt") (or_introl eq_refl)).
  - refine (proj1 (proj2 (select_model_agrees env "llama") _)).
    intros [H | [H | H]]; discriminate.
Defined.

Lemma create_session_ids_distinct_witness :
  let env : gmap string string :=
    <["MODEL_GPT" := "openai/gpt-4.1"]> (<["MODEL_GEMINI" := "gemini-2.0-flash"]> ∅) in
  ∃ s s',
    "gpt" ≠ "gemini" ∧
    agent_session.create_session env "gpt" "weather_app" "user_1" "session_001"
      = Ok s ∧
    agent_session.create_session env "gemini" "weather_app" "user_1" "session_001"
      = Ok s' ∧
    agent_session.SESSION_ID s ≠ agent_session.SESSION_ID s'.
Proof.
  intros env.
  assert (Hne : "gpt" ≠ "gemini") by discriminate.
  eexists _, _. split; [exact Hne |].
  split; [reflexivity |]. split; [reflexivity |].
  exact (proj1 (proj2 (proj2
           (create_session_ids_distinct env env "gpt" "gemini"
              "weather_app" "user_1" "session_001" _ _ Hne eq_refl eq_refl)))).
Defined.
